(** * express-rested: the item GET, item PATCH and collection PUT handlers

    A shallow embedding of [lib/operations/putAll.js],
    [lib/operations/resource/patch.js] and the item GET operation, and the
    properties of the resource collection engine that rest on them.

    JavaScript objects that are shared and mutated in place (the resource
    instances) live in an explicit heap; the collection maps identifiers to
    heap references, so that [resource.edit(info)] on a resource obtained
    from [collection.get(id)] is visible through the collection. *)

From stdpp Require Import base option list strings gmap fin_maps pretty.
From Stdlib Require Import ZArith.

(** ** Request payloads: JavaScript values as a JSON body parser yields them *)

#[local] Unset Elimination Schemes.
Inductive Value : Type :=
| JUndefined
| JNull
| JBool (b : bool)
| JNum (n : Z)      (* a number; the handlers do not compute with it *)
| JStr (s : string)
| JArr (items : list Value)
| JObj (props : list (string * Value)).
#[local] Set Elimination Schemes.

(** [typeof v] *)
Definition typeof (v : Value) : string :=
  match v with
  | JUndefined => "undefined"
  | JNull => "object"
  | JBool _ => "boolean"
  | JNum _ => "number"
  | JStr _ => "string"
  | JArr _ | JObj _ => "object"
  end.

(** [!v] is [negb (truthy v)]. *)
Definition truthy (v : Value) : bool :=
  match v with
  | JUndefined | JNull => false
  | JBool b => b
  | JNum n => negb (n =? 0)%Z
  | JStr s => negb (String.eqb s "")
  | JArr _ | JObj _ => true
  end.

(** The names of the indices of an array: ["0"], ["1"], ... *)
Definition index_names (n : nat) : list string := pretty <$> seq 0 n.

(** The enumerable own properties of a value, in the order of
    [Object.keys]: for an object its properties (as listed), for an array
    its elements under their index names.  The handlers only enumerate
    values that passed the [typeof data === 'object'] guard. *)
Definition own_props (v : Value) : list (string * Value) :=
  match v with
  | JObj props => props
  | JArr items => zip (index_names (length items)) items
  | _ => []
  end.

(** [Object.keys(v)] *)
Definition object_keys (v : Value) : list string := (own_props v).*1.

Fixpoint assoc (key : string) (props : list (string * Value)) : option Value :=
  match props with
  | [] => None
  | (k, x) :: rest => if String.eqb k key then Some x else assoc key rest
  end.

(** [v[key]] for an own property, [undefined] when there is none. *)
Definition get_prop (v : Value) (key : string) : Value :=
  default JUndefined (assoc key (own_props v)).

(** ** Outcomes and calls *)

(** A resource instance is referred to by its address in the heap, a
    [nat]. *)

(** The CRUD operation kinds of the rights configuration. *)
Inductive Op := Create | Read | Update | Delete.

(** What a handler does last.  [Fn] is the type of the functions that
    [context.createCustomFn] returns. *)
Inductive Outcome (Fn : Type) : Type :=
| Status (code : Z)                      (* cb(context.setStatus(code)) *)
| StatusBody (code : Z) (resource : nat) (* cb(context.setStatus(code).setBody(resource)) *)
| Disallowed (resource : nat)            (* cb(context.disallow(resource)) *)
| Handoff (fn : Fn).                     (* return fn() *)
Arguments Status {Fn} code.
Arguments StatusBody {Fn} code resource.
Arguments Disallowed {Fn} resource.
Arguments Handoff {Fn} fn.

(** The outcome taxonomy of the specification. *)
Inductive OutcomeKind :=
| OK | NoContent | BadRequest | Forbidden | NotFound | UnsupportedFormat
| InternalError | CustomFormat | OtherStatus (code : Z).

(** Modelled from the spec: [context.setStatus] and [context.disallow] are
    not among the sources; the status taxonomy names the codes, and a denial
    by the rights evaluator ([context.disallow]) is the outcome [Forbidden]. *)
Definition outcome_kind {Fn} (o : Outcome Fn) : OutcomeKind :=
  match o with
  | Status 400 => BadRequest
  | Status 404 => NotFound
  | Status 415 => UnsupportedFormat
  | Status 500 => InternalError
  | Status 204 => NoContent
  | Status 200 | StatusBody 200 _ => OK
  | Status code | StatusBody code _ => OtherStatus code
  | Disallowed _ => Forbidden
  | Handoff _ => CustomFormat
  end.

(** The calls a handler makes on the collection, on resources, on the
    rights evaluator and on the formatter capability, in program order. *)
Inductive Event : Type :=
| CallGet (id : string)
| CallGetMap
| CallInstantiate (id : string) (info : Value)
| CallMay (op : Op) (resource : nat)
| CallEdit (resource : nat) (info : Value)
| CallCreateCustomFn (operation : string) (resource : nat)
| CallSet (id : string) (resource : nat)
| CallSetAll (resources : gmap string nat).

(** A commit: a call of [collection.set] or [collection.setAll]. *)
Definition is_commit (e : Event) : bool :=
  match e with CallSet _ _ | CallSetAll _ => true | _ => false end.

Definition is_setAll (e : Event) : bool :=
  match e with CallSetAll _ => true | _ => false end.

(** ** The resource class *)

(** How a call of [edit] ends: it returns, or it throws; either way the
    instance is left in some state. *)
Inductive EditResult (R : Type) : Type :=
| Returned (state : R)
| Thrown (state : R).
Arguments Returned {R} state.
Arguments Thrown {R} state.

(** The resource API: [new Class(id, info)] ([None] when the constructor
    throws) and [resource.edit(info)]. *)
Class Resource (R : Type) := {
  construct : string → Value → option R;
  edit : R → Value → EditResult R;
}.
Arguments construct : simpl never.
Arguments edit : simpl never.

(** What the persistence callback is called with: an error or none. *)
Inductive Persisted := PersistOk | PersistError.

(** ** The world: heap, collection, call log *)

Record World (R : Type) : Type := mkWorld {
  heap : list R;                 (* the resource instances *)
  collection : gmap string nat;  (* the collection: identifier to instance *)
  trace : list Event;            (* the calls made so far *)
}.
Arguments mkWorld {R} heap collection trace.
Arguments heap {R} w.
Arguments collection {R} w.
Arguments trace {R} w.

Definition log {R} (e : Event) (w : World R) : World R :=
  mkWorld (heap w) (collection w) (trace w ++ [e]).

(** The state of the resource stored under an identifier. *)
Definition resource_at {R} (w : World R) (id : string) : option R :=
  collection w !! id ≫= λ r, heap w !! r.

(** The observable state of a collection: which identifiers it has and
    the state of the resource under each. *)
Definition snapshot {R} (w : World R) : gmap string R :=
  omap (λ r, heap w !! r) (collection w).

(** Every stored reference designates an instance. *)
Definition well_formed {R} (w : World R) : Prop :=
  map_Forall (λ _ r, r < length (heap w)) (collection w).

(** No instance is stored under two identifiers. *)
Definition alias_free {R} (w : World R) : Prop :=
  NoDup (map_to_list (collection w)).*2.

(** ** A monad for handlers: state, and a terminal outcome that ends the
    handler ([return cb(...)]) *)

Definition M (R Fn A : Type) : Type := World R → (Outcome Fn + A) * World R.

#[global] Instance M_ret {R Fn} : MRet (M R Fn) := λ A a w, (inr a, w).

#[global] Instance M_bind {R Fn} : MBind (M R Fn) := λ A B k m w,
  match m w with
  | (inl o, w') => (inl o, w')
  | (inr a, w') => k a w'
  end.

Definition finish {R Fn A} (o : Outcome Fn) : M R Fn A := λ w, (inl o, w).

(** A handler ends in exactly one outcome. *)
Definition run {R Fn} (m : M R Fn Empty_set) (w : World R) : Outcome Fn * World R :=
  match m w with
  | (inl o, w') => (o, w')
  | (inr impossible, _) => match impossible with end
  end.

(** ** The request context *)

Record Context (R Fn : Type) : Type := mkContext {
  baseName : string;                          (* the identifier in the URL *)
  isJson : bool;                              (* the default representation is asked for *)
  createCustomFn : string → R → option Fn;    (* the formatter for an operation on a resource *)
  rights : Op → R → bool;                     (* the rights configuration, resolved for this request *)
}.
Arguments mkContext {R Fn} baseName isJson createCustomFn rights.
Arguments baseName {R Fn} c.
Arguments isJson {R Fn} c.
Arguments createCustomFn {R Fn} c operation resource.
Arguments rights {R Fn} c op resource.

(** ** Plain objects as the handlers use them *)

(** [object[id] = resource] on an object made by [{}], as a mapping of its
    own properties.  The assignment adds or overwrites an own property, but
    for the name ["__proto__"]: there it runs the setter of
    [Object.prototype], which makes the resource the prototype of the object
    and adds no own property.  (Resources are taken to have data properties
    only, as a Beer has, so that the new prototype brings no setter of its
    own.) *)
Definition assign (id : string) (resource : nat) (object : gmap string nat)
  : gmap string nat :=
  if decide (id = "__proto__") then object else <[id := resource]> object.

(** The own properties of an object in the order of [Object.keys], for an
    object with the given mapping: each once. *)
Definition enumerates (entries : list (string * nat)) (object : gmap string nat)
  : Prop :=
  NoDup entries.*1 ∧ list_to_map entries = object.

(** Modelled from the spec: the order in which the copy that
    [collection.getMap()] returns lists its keys belongs to the collection,
    which is not among the sources ("insertion order not guaranteed to be
    preserved across implementations").  It is a parameter: any order of the
    entries of the mapping. *)
Record KeyOrder : Type := mkKeyOrder {
  entries_of : gmap string nat → list (string * nat);
  entries_of_enumerates : ∀ object, enumerates (entries_of object) object;
}.

Section Engine.
Context {R Fn : Type} `{!Resource R}.

(** The persistence notifier registered on the collection, as the result
    it reports for the identifiers it is called with. *)
Variable notifier : list string → Persisted.

(** *** The collection *)

(** Modelled from the spec: [collection.get(id)] is not among the sources;
    "get(id) -> Resource | absent. No side effects." *)
Definition coll_get (id : string) : M R Fn (option nat) := λ w,
  (inr (collection w !! id), log (CallGet id) w).

(** The order of the keys of the collection's mapping. *)
Variable order : KeyOrder.

(** Modelled from the spec: [collection.getMap()] is not among the
    sources; it "returns a copy of the mapping".  The copy is the list of
    its own properties, in the order of [Object.keys]. *)
Definition coll_getMap : M R Fn (list (string * nat)) := λ w,
  (inr (entries_of order (collection w)), log CallGetMap w).

(** Modelled from the spec: [collection.instantiate(id, info)] is not
    among the sources; it "delegates to the Resource Adapter's constructor
    capability" and "fails (reported to the caller as a validation
    failure, never a crash) if the adapter rejects the payload".  A new
    instance is allocated at the end of the heap. *)
Definition coll_instantiate (id : string) (info : Value) : M R Fn (option nat) := λ w,
  match construct id info with
  | Some state =>
      (inr (Some (length (heap w))),
       mkWorld (heap w ++ [state]) (collection w) (trace w ++ [CallInstantiate id info]))
  | None => (inr None, log (CallInstantiate id info) w)
  end.

(** Modelled from the spec: [collection.set(id, resource, cb)] is not
    among the sources; it "inserts or replaces a single entry, then
    invokes the Persistence Notifier with [id]", and "the notifier failure
    path does not attempt automatic rollback". *)
Definition coll_set (id : string) (resource : nat) : M R Fn Persisted := λ w,
  (inr (notifier [id]),
   mkWorld (heap w) (<[id := resource]> (collection w)) (trace w ++ [CallSet id resource])).

(** The identifiers a replacement of [old] by [new] affects: those
    deleted, then those created or updated. *)
Definition affected_ids (old new : gmap string nat) : list string :=
  filter (λ id, new !! id = None) (elements (dom old)) ++ elements (dom new).

(** Modelled from the spec: [collection.setAll(resources, cb)] is not
    among the sources; it "replaces the entire collection with exactly the
    given mapping", "then invokes the Persistence Notifier with the union
    of affected identifiers (created + updated + deleted)". *)
Definition coll_setAll (resources : gmap string nat) : M R Fn Persisted := λ w,
  (inr (notifier (affected_ids (collection w) resources)),
   mkWorld (heap w) resources (trace w ++ [CallSetAll resources])).

(** *** Resources, rights and formatters *)

(** [resource.edit(info)] inside [try { } catch], telling whether it
    threw.  The instance is edited in place.  (A reference outside the
    heap designates no object; a well-formed world has none.) *)
Definition try_edit (resource : nat) (info : Value) : M R Fn bool := λ w,
  match heap w !! resource with
  | Some state =>
      match edit state info with
      | Returned state' =>
          (inr false, mkWorld (<[resource := state']> (heap w)) (collection w)
                              (trace w ++ [CallEdit resource info]))
      | Thrown state' =>
          (inr true, mkWorld (<[resource := state']> (heap w)) (collection w)
                             (trace w ++ [CallEdit resource info]))
      end
  | None => (inr true, log (CallEdit resource info) w)
  end.

(** Modelled from the spec: [context.mayCreate], [mayRead], [mayUpdate]
    and [mayDelete] are not among the sources; "authorize(kind, context,
    resource) -> boolean", decided on the resource instance as it is when
    asked. *)
Definition may (ctx : Context R Fn) (op : Op) (resource : nat) : M R Fn bool := λ w,
  (inr (from_option (rights ctx op) false (heap w !! resource)),
   log (CallMay op resource) w).

(** Modelled from the spec: [context.createCustomFn] is not among the
    sources; "createCustomFn(operationKind, resource) -> invokable | absent". *)
Definition custom_fn (ctx : Context R Fn) (operation : string) (resource : nat)
  : M R Fn (option Fn) := λ w,
  (inr (heap w !! resource ≫= createCustomFn ctx operation),
   log (CallCreateCustomFn operation resource) w).

(** *** Item GET *)

Definition get (ctx : Context R Fn) : M R Fn Empty_set :=
  let id := baseName ctx in
  found ← coll_get id;
  match found with
  | None => finish (Status 404)
  | Some resource =>
      if negb (isJson ctx) then
        fn ← custom_fn ctx "get" resource;
        match fn with
        | None => finish (Status 415)
        | Some fn => finish (Handoff fn)
        end
      else
        allowed ← may ctx Read resource;
        if negb allowed then finish (Disallowed resource)
        else finish (StatusBody 200 resource)
  end.

(** *** Item PATCH *)

Definition patch (ctx : Context R Fn) (obj : Value) : M R Fn Empty_set :=
  let id := baseName ctx in
  found ← coll_get id;
  match found with
  | None => finish (Status 404)
  | Some resource =>
      if negb (isJson ctx) then
        fn ← custom_fn ctx "patch" resource;
        match fn with
        | None => finish (Status 415)
        | Some fn => finish (Handoff fn)
        end
      else
        allowed ← may ctx Update resource;
        if negb allowed then finish (Disallowed resource)
        else
          threw ← try_edit resource obj;
          if threw : bool then finish (Status 400)
          else
            error ← coll_set id resource;
            match error with
            | PersistError => finish (Status 500)
            | PersistOk => finish (Status 204)
            end
  end.

(** *** Collection PUT *)

(** [delete object[id]] on a copy of the collection's mapping: the other
    properties stay, in their order. *)
Definition delete_property (id : string) (object : list (string * nat))
  : list (string * nat) :=
  filter (λ entry, entry.1 ≠ id) object.

(** The body of the first loop of [putAll], for one identifier of the
    payload: it adds to [resources] and takes from [toDelete]. *)
Definition putAll_item (ctx : Context R Fn) (data : Value) (id : string)
    (resources : gmap string nat) (toDelete : list (string * nat))
  : M R Fn (gmap string nat * list (string * nat)) :=
  found ← coll_get id;
  match found with
  | None =>
      (* create *)
      created ← coll_instantiate id (get_prop data id);
      match created with
      | None => finish (Status 400)
      | Some resource =>
          allowed ← may ctx Create resource;
          if negb allowed then finish (Disallowed resource)
          else mret (assign id resource resources, toDelete)
      end
  | Some resource =>
      (* update *)
      allowed ← may ctx Update resource;
      if negb allowed then finish (Disallowed resource)
      else
        threw ← try_edit resource (get_prop data id);
        if threw : bool then finish (Status 400)
        else mret (assign id resource resources, delete_property id toDelete)
  end.

(** The first loop of [putAll], over [Object.keys(data)]. *)
Fixpoint putAll_items (ctx : Context R Fn) (data : Value) (ids : list string)
    (resources : gmap string nat) (toDelete : list (string * nat))
  : M R Fn (gmap string nat * list (string * nat)) :=
  match ids with
  | [] => mret (resources, toDelete)
  | id :: ids =>
      '(resources, toDelete) ← putAll_item ctx data id resources toDelete;
      putAll_items ctx data ids resources toDelete
  end.

(** The second loop of [putAll], over [Object.keys(toDelete)]. *)
Fixpoint putAll_deletions (ctx : Context R Fn) (candidates : list (string * nat))
  : M R Fn unit :=
  match candidates with
  | [] => mret tt
  | (_, resource) :: candidates =>
      allowed ← may ctx Delete resource;
      if negb allowed then finish (Disallowed resource)
      else putAll_deletions ctx candidates
  end.

Definition putAll (ctx : Context R Fn) (data : Value) : M R Fn Empty_set :=
  if negb (truthy data) || negb (String.eqb (typeof data) "object") then
    finish (Status 400)
  else
    let ids := object_keys data in
    toDelete ← coll_getMap;
    '(resources, toDelete) ← putAll_items ctx data ids ∅ toDelete;
    _ ← putAll_deletions ctx toDelete;
    error ← coll_setAll resources;
    match error with
    | PersistError => finish (Status 500)
    | PersistOk => finish (Status 204)
    end.

End Engine.

(** ** The resource class of the README: Beer *)

Module Beer.

(** [class Beer { constructor(id, info) { this.id = id; this.edit(info); }
    edit(info) { this.name = info.name; this.rating = info.rating; } }] *)
Record t : Type := mk {
  id : string;
  name : Value;
  rating : Value;
}.

(** Reading a property of [null] or [undefined] throws, before anything
    is assigned; on any other value a missing property reads as
    [undefined]. *)
Definition edit (this : t) (info : Value) : EditResult t :=
  match info with
  | JUndefined | JNull => Thrown this
  | _ => Returned (mk (id this) (get_prop info "name") (get_prop info "rating"))
  end.

Definition construct (id : string) (info : Value) : option t :=
  match edit (mk id JUndefined JUndefined) info with
  | Returned this => Some this
  | Thrown _ => None
  end.

#[global] Instance resource : Resource t := Build_Resource t construct edit.

(** The payload [{ name: n, rating: r }]. *)
Definition info (n : string) (r : Z) : Value :=
  JObj [("name", JStr n); ("rating", JNum r)].

(** A request context with constant rights, in the default representation,
    and no formatter. *)
Definition context (baseName : string) (create read update delete : bool)
  : Context t unit :=
  mkContext baseName true (λ _ _, None)
    (λ op _, match op with
             | Create => create | Read => read
             | Update => update | Delete => delete
             end).

(** A request for a custom representation, with a formatter registered
    for every operation on every beer. *)
Definition custom_context (baseName : string) (read update : bool)
  : Context t unit :=
  mkContext baseName false (λ _ _, Some tt)
    (λ op _, match op with Read => read | Update => update | _ => false end).

(** A collection with the beers [a] and [b]. *)
Definition cellar : World t :=
  mkWorld [mk "a" (JStr "Ale") (JNum 1); mk "b" (JStr "Bock") (JNum 2)]
          (<["b" := 1]> (<["a" := 0]> ∅)) [].

(** The keys of the cellar's mapping, in an order of its own. *)
Definition shelf : KeyOrder.
Proof.
  refine (mkKeyOrder map_to_list _). intros object. split.
  - apply NoDup_fst_map_to_list.
  - apply list_to_map_to_list.
Defined.

Definition saves : list string → Persisted := λ _, PersistOk.
Definition fails : list string → Persisted := λ _, PersistError.

(** A request for a custom representation with no formatter registered. *)
Definition unformatted (baseName : string) : Context t unit :=
  mkContext baseName false (λ _ _, None) (λ _ _, true).

(** A request that may do everything. *)
Definition anyone (baseName : string) : Context t unit :=
  context baseName true true true true.

(** The payload [{ b: { name: "Bitter", rating: 3 }, c: { name: "Cider",
    rating: 4 } }]. *)
Definition replacement : Value :=
  JObj [("b", info "Bitter" 3); ("c", info "Cider" 4)].

(** The payload [{ b: { name: "Bitter", rating: 3 }, c: null }]. *)
Definition half_bad : Value :=
  JObj [("b", info "Bitter" 3); ("c", JNull)].

(** The payload [[{ name: "Stout", rating: 5 }]], an array. *)
Definition listing : Value := JArr [info "Stout" 5].

(** The payload of the specification's test of atomicity: three beers
    that the cellar does not have, and then [b]. *)
Definition three_new_one_old : Value :=
  JObj [("c", info "Cider" 4); ("d", info "Dubbel" 5); ("e", info "Eisbock" 6);
        ("b", info "Bitter" 3)].

(** The payload [{ "__proto__": { name: "Porter", rating: 6 } }] as
    [JSON.parse] yields it: ["__proto__"] is an own property of it. *)
Definition proto_payload : Value := JObj [("__proto__", info "Porter" 6)].

End Beer.

(** The calls made between two worlds of one run. *)
Definition calls {R} (before after : World R) : list Event :=
  drop (length (trace before)) (trace after).

(** ** What the claims speak of, on the world before the call *)

Section Judgements.
Context {R Fn : Type} `{!Resource R}.

(** The state an identifier of the payload is created or updated to: a
    new instance for an identifier that is not in the collection, the
    edited instance for one that is. *)
Definition updated_state (data : Value) (w : World R) (id : string) : option R :=
  match collection w !! id with
  | None => construct id (get_prop data id)
  | Some r =>
      match heap w !! r with
      | Some state =>
          match edit state (get_prop data id) with
          | Returned state' => Some state'
          | Thrown _ => None
          end
      | None => None
      end
  end.

(** How the processing of an identifier of the payload fails, if it does.
    An identifier that is not in the collection: BadRequest when the
    instantiation fails, Forbidden when create is not allowed on the new
    resource.  One that is in the collection: Forbidden when update is not
    allowed on the resource, BadRequest when its edit throws. *)
Definition item_failure (ctx : Context R Fn) (data : Value) (w : World R)
    (id : string) : option OutcomeKind :=
  match collection w !! id with
  | None =>
      match construct id (get_prop data id) with
      | Some state => if rights ctx Create state then None else Some Forbidden
      | None => Some BadRequest
      end
  | Some r =>
      match heap w !! r with
      | Some state =>
          if rights ctx Update state then
            match edit state (get_prop data id) with
            | Returned _ => None
            | Thrown _ => Some BadRequest
            end
          else Some Forbidden
      | None => Some Forbidden
      end
  end.

(** An identifier of the payload passes its processing. *)
Definition item_passes (ctx : Context R Fn) (data : Value) (w : World R)
    (id : string) : bool :=
  match item_failure ctx data w id with
  | None => true
  | Some _ => false
  end.

(** The first identifier of the payload that does not pass fails in the
    given way. *)
Definition fails_first (ctx : Context R Fn) (data : Value) (w : World R)
    (ids : list string) (kind : OutcomeKind) : Prop :=
  ∃ passed id rest,
    ids = passed ++ id :: rest
    ∧ Forall (λ id, item_passes ctx data w id = true) passed
    ∧ item_failure ctx data w id = Some kind.

(** The deletion candidates: what is in the collection under an
    identifier that the payload does not have. *)
Definition deletion_candidates (data : Value) (w : World R) : gmap string nat :=
  filter (λ entry, entry.1 ∉ object_keys data) (collection w).

(** The deletion candidates in the order of the collection's keys: the
    order in which the second loop of collection PUT meets them. *)
Definition candidates_in_order (order : KeyOrder) (data : Value) (w : World R)
  : list (string * nat) :=
  filter (λ entry, entry.1 ∉ object_keys data) (entries_of order (collection w)).

Definition may_delete (ctx : Context R Fn) (w : World R) (resource : nat) : bool :=
  from_option (rights ctx Delete) false (heap w !! resource).

(** The identifiers of the payload that an assignment makes a key of a
    plain object: all but ["__proto__"]. *)
Definition assigned_keys (data : Value) : list string :=
  filter (λ id, id ≠ "__proto__") (object_keys data).

(** The state that the [edit] with the payload of an identifier leaves the
    stored resource in, whether it returns or throws. *)
Definition state_after_edit (data : Value) (w : World R) (id : string) : option R :=
  match collection w !! id with
  | None => None
  | Some r =>
      match heap w !! r with
      | Some state =>
          match edit state (get_prop data id) with
          | Returned state' | Thrown state' => Some state'
          end
      | None => None
      end
  end.

(** The identifiers whose instantiation or [edit] a collection PUT reaches:
    those that pass, up to the first that fails, and that one too if it
    fails with BadRequest, that is in the instantiation or the [edit]
    itself.  A rights check that fails comes before the [edit]. *)
Fixpoint reached (ctx : Context R Fn) (data : Value) (w : World R)
    (ids : list string) : list string :=
  match ids with
  | [] => []
  | id :: ids =>
      match item_failure ctx data w id with
      | None => id :: reached ctx data w ids
      | Some BadRequest => [id]
      | Some _ => []
      end
  end.

(** The state of the resource under an identifier once a collection PUT
    has ended on a failed check: as [edit] left it if the identifier was
    reached, as before the call otherwise. *)
Definition after_failed_put (ctx : Context R Fn) (data : Value) (w : World R)
    (id : string) : option R :=
  if decide (id ∈ reached ctx data w (object_keys data))
  then state_after_edit data w id
  else resource_at w id.

(** Every identifier of the payload passes, and deletion is allowed for
    every deletion candidate. *)
Definition all_pass (ctx : Context R Fn) (data : Value) (w : World R) : Prop :=
  Forall (λ id, item_passes ctx data w id = true) (object_keys data)
  ∧ map_Forall (λ _ r, may_delete ctx w r = true) (deletion_candidates data w).

(** What the first loop has gathered in [resources]: for an identifier of
    the collection its instance, for another a new instance. *)
Definition gathered (w0 w : World R) (resources : gmap string nat) : Prop :=
  (∀ id r, resources !! id = Some r →
           collection w0 !! id = Some r
           ∨ collection w0 !! id = None ∧ length (heap w0) ≤ r < length (heap w))
  ∧ (∀ id1 id2 r, resources !! id1 = Some r → resources !! id2 = Some r → id1 = id2).

End Judgements.

(** What a handler reports once the persistence callback is called. *)
Definition reported {Fn} (p : Persisted) : Outcome Fn :=
  match p with
  | PersistError => Status 500
  | PersistOk => Status 204
  end.

Section Statements.
Context {R Fn : Type} `{!Resource R}.
Variable notifier : list string → Persisted.
Variable order : KeyOrder.

(** Item PATCH has passed its checks: the default representation is asked
    for, the identifier is in the collection, update is allowed on the
    resource and its [edit] returns. *)
Definition patch_checks_pass (ctx : Context R Fn) (obj : Value) (w : World R) : Prop :=
  isJson ctx = true
  ∧ ∃ r s s', collection w !! baseName ctx = Some r
            ∧ heap w !! r = Some s
            ∧ rights ctx Update s = true
            ∧ edit s obj = Returned s'.

(** The atomicity of collection PUT as the specification has it: after an
    outcome of a failed check (BadRequest, Forbidden) the observable state
    of the collection is the one before the call. *)
Definition putAll_atomic (ctx : Context R Fn) (data : Value) (w : World R) : Prop :=
  let result := run (putAll notifier order ctx data) w in
  outcome_kind result.1 = BadRequest ∨ outcome_kind result.1 = Forbidden →
  snapshot result.2 = snapshot w.

(** The decision sequence of item GET as the specification has it, for an
    identifier that is in the collection: no formatter for a representation
    other than the default, UnsupportedFormat; else read not allowed,
    Forbidden; else OK with the resource as body. *)
Definition get_decides_in_three_steps (ctx : Context R Fn) (w : World R) : Prop :=
  ∀ r s, collection w !! baseName ctx = Some r → heap w !! r = Some s →
    (run (get ctx) w).1 =
      if negb (isJson ctx)
         && match createCustomFn ctx "get" s with None => true | Some _ => false end
      then Status 415
      else if negb (rights ctx Read s) then Disallowed r
      else StatusBody 200 r.

(** A mapping from identifier to per-resource payload: a JSON object. *)
Definition is_mapping (data : Value) : bool :=
  match data with JObj _ => true | _ => false end.

(** The shape check of collection PUT as the specification has it: what is
    not a mapping is answered BadRequest. *)
Definition putAll_rejects_non_mappings (ctx : Context R Fn) (data : Value)
    (w : World R) : Prop :=
  is_mapping data = false →
  outcome_kind (run (putAll notifier order ctx data) w).1 = BadRequest.

(** The replace semantics of collection PUT as the specification has
    them: after a 204 the identifiers of the collection are exactly those
    of the payload. *)
Definition putAll_replaces_exactly (ctx : Context R Fn) (data : Value)
    (w : World R) : Prop :=
  ∀ w', run (putAll notifier order ctx data) w = (Status 204, w') →
        dom (collection w') = list_to_set (object_keys data).

End Statements.

(** Collection PUT of a payload on the cellar commits exactly when all
    passes, and then with a mapping of the keys given. *)
Definition commit_decided_on_cellar (keys : list string)
    (ctx : Context Beer.t unit) (data : Value) : Prop :=
  ∃ o w',
    run (putAll Beer.saves Beer.shelf ctx data) Beer.cellar = (o, w')
    ∧ (all_pass ctx data Beer.cellar
       ∧ (∃ before resources,
            calls Beer.cellar w' = before ++ [CallSetAll resources]
            ∧ Forall (λ e, is_setAll e = false) before
            ∧ dom resources = list_to_set keys)
       ∨ ¬ all_pass ctx data Beer.cellar
         ∧ Forall (λ e, is_setAll e = false) (calls Beer.cellar w')
         ∧ (fails_first ctx data Beer.cellar (object_keys data) (outcome_kind o)
            ∨ Forall (λ id, item_passes ctx data Beer.cellar id = true)
                     (object_keys data)
              ∧ outcome_kind o = Forbidden)).

(** The decision of collection PUT as the specification has it, on the
    cellar: it commits exactly when all passes, and then with a mapping of
    exactly the identifiers of the payload. *)
Definition commits_iff_all_pass_on_cellar (ctx : Context Beer.t unit) (data : Value)
  : Prop :=
  commit_decided_on_cellar (object_keys data) ctx data.

(** ** The course of a run, read off its calls *)

(** The calls of the first loop of [putAll]: lookups, instantiations,
    edits, and create and update checks. *)
Definition is_item_call (e : Event) : bool :=
  match e with
  | CallGet _ | CallInstantiate _ _ | CallEdit _ _
  | CallMay Create _ | CallMay Update _ => true
  | _ => false
  end.

(** The calls of the second loop of [putAll]: delete checks. *)
Definition is_delete_check (e : Event) : bool :=
  match e with CallMay Delete _ => true | _ => false end.

(** The identifiers that [collection.get] was called with, in order. *)
Definition lookups (evs : list Event) : list string :=
  omap (λ e, match e with CallGet id => Some id | _ => None end) evs.

(** The calls of an update in the first loop of [putAll]: the lookup,
    the update check and the edit. *)
Definition is_update_call (e : Event) : bool :=
  match e with
  | CallGet _ | CallEdit _ _ | CallMay Update _ => true
  | _ => false
  end.

(** An outcome is accounted for by the last call made before it: a denial
    by a rights check on that resource that said no; a 400 by nothing at
    all (the shape check), by an [edit], or by an instantiation that the
    class refuses; a 404 by a lookup of an identifier that is not there; a
    415 or a hand-off by the formatter capability; a 500 or a 204 by a
    commit; a 200 by a read check on the resource sent, that said yes. *)
Definition accounted_for {R Fn} `{!Resource R} (ctx : Context R Fn)
    (before after : World R) (o : Outcome Fn) : Prop :=
  let last_call := last (calls before after) in
  match o with
  | Disallowed r =>
      ∃ op, last_call = Some (CallMay op r)
          ∧ from_option (rights ctx op) false (heap after !! r) = false
  | Status 400 =>
      calls before after = []
      ∨ (∃ r info, last_call = Some (CallEdit r info))
      ∨ (∃ id info, last_call = Some (CallInstantiate id info)
                  ∧ construct id info = None)
  | Status 404 =>
      ∃ id, last_call = Some (CallGet id) ∧ collection before !! id = None
  | Status 415 => ∃ operation r, last_call = Some (CallCreateCustomFn operation r)
  | Handoff _ => ∃ operation r, last_call = Some (CallCreateCustomFn operation r)
  | Status 500 | Status 204 => ∃ e, last_call = Some e ∧ is_commit e = true
  | StatusBody 200 r =>
      last_call = Some (CallMay Read r)
      ∧ from_option (rights ctx Read) false (heap after !! r) = true
  | _ => False
  end.

(** * Properties *)

(** Unfolds the handler monad in the goal. *)
Ltac unfold_M :=
  unfold run, mbind, mret, M_bind, M_ret, finish, coll_get, coll_getMap,
    coll_instantiate, coll_set, coll_setAll, try_edit, may, custom_fn, log;
  cbn [heap collection trace fst snd].

(** Runs a handler on the facts at hand: rewrites with the equations among
    the hypotheses and computes, until nothing changes. *)
Ltac run_handler :=
  unfold_M;
  repeat (progress (cbn; repeat match goal with
                                | H : _ = _ |- _ => rewrite H
                                end));
  rewrite <- ?app_assoc; cbn [app].

(** Decides a decidable proposition about concrete data by computation. *)
Ltac by_computation := refine (bool_decide_unpack _ _); vm_compute; exact I.

Lemma calls_app {R} (w w' : World R) evs :
  trace w' = trace w ++ evs → calls w w' = evs.
Proof. intros E. unfold calls. rewrite E. apply drop_app_length. Qed.

Section ItemHandlers.
Context {R Fn : Type} `{!Resource R}.
Variable notifier : list string → Persisted.
Implicit Types (ctx : Context R Fn) (w : World R) (obj : Value).

(** C6. An identifier that is not in the collection: [collection.get]
    returns nothing, and item GET and item PATCH both end with status 404
    (NotFound) having made no call but that [collection.get]: no formatter,
    rights, edit or commit step, and the heap and the collection are as
    before. *)
Theorem absent_identifier_not_found ctx obj w :
  collection w !! baseName ctx = None →
  @coll_get R Fn (baseName ctx) w = (inr None, log (CallGet (baseName ctx)) w)
  ∧ run (get ctx) w = (Status 404, log (CallGet (baseName ctx)) w)
  ∧ run (patch notifier ctx obj) w = (Status 404, log (CallGet (baseName ctx)) w)
  ∧ outcome_kind (Fn := Fn) (Status 404) = NotFound.
Proof.
  intros Habsent. unfold get, patch. unfold_M. rewrite Habsent. done.
Qed.

(** Item PATCH when all its checks pass: the calls it makes, the world it
    leaves and what it reports. *)
Lemma patch_commits ctx obj w r s s' :
  isJson ctx = true →
  collection w !! baseName ctx = Some r →
  heap w !! r = Some s →
  rights ctx Update s = true →
  edit s obj = Returned s' →
  run (patch notifier ctx obj) w =
    (reported (notifier [baseName ctx]),
     mkWorld (<[r := s']> (heap w)) (<[baseName ctx := r]> (collection w))
             (trace w ++ [CallGet (baseName ctx); CallMay Update r; CallEdit r obj;
                          CallSet (baseName ctx) r])).
Proof.
  intros Hjson Hr Hs Hok Hret. unfold patch. run_handler.
  by destruct (notifier [baseName ctx]).
Qed.

(** C2. Item PATCH on a request for the default (JSON) representation
    decides in this order and stops at the first outcome: identifier not in
    the collection, 404 (NotFound); update not allowed on the resource,
    [disallow] (Forbidden); [edit] throws, 400 (BadRequest); otherwise
    [collection.set], and 500 (InternalError) when the persistence callback
    gets an error, 204 (NoContent) when it does not. *)
Theorem patch_json_sequence ctx obj w :
  isJson ctx = true →
  let id := baseName ctx in
  (collection w !! id = None →
     run (patch notifier ctx obj) w = (Status 404, log (CallGet id) w))
  ∧ (∀ r s, collection w !! id = Some r → heap w !! r = Some s →
     rights ctx Update s = false →
     run (patch notifier ctx obj) w =
       (Disallowed r,
        mkWorld (heap w) (collection w) (trace w ++ [CallGet id; CallMay Update r])))
  ∧ (∀ r s s', collection w !! id = Some r → heap w !! r = Some s →
     rights ctx Update s = true → edit s obj = Thrown s' →
     run (patch notifier ctx obj) w =
       (Status 400,
        mkWorld (<[r := s']> (heap w)) (collection w)
                (trace w ++ [CallGet id; CallMay Update r; CallEdit r obj])))
  ∧ (∀ r s s', collection w !! id = Some r → heap w !! r = Some s →
     rights ctx Update s = true → edit s obj = Returned s' →
     run (patch notifier ctx obj) w =
       (match notifier [id] with
        | PersistError => Status 500
        | PersistOk => Status 204
        end,
        mkWorld (<[r := s']> (heap w)) (<[id := r]> (collection w))
                (trace w ++ [CallGet id; CallMay Update r; CallEdit r obj;
                             CallSet id r]))).
Proof.
  intros Hjson id. subst id.
  split; [|split; [|split]].
  - intros Hnone. unfold patch. by run_handler.
  - intros r s Hr Hs Hdeny. unfold patch. by run_handler.
  - intros r s s' Hr Hs Hok Hthrow. unfold patch. by run_handler.
  - intros r s s' Hr Hs Hok Hret.
    rewrite (patch_commits ctx obj w r s s') by done.
    by destruct (notifier [baseName ctx]).
Qed.

(** C3, amended. Item GET decides in this order and stops at the first
    outcome: identifier not in the collection, 404 (NotFound); a
    representation other than the default is asked for and no formatter is
    registered for the resource, 415 (UnsupportedFormat); such a
    representation with a formatter registered, the formatter is called and
    no read check is made; otherwise, on the default representation, read
    not allowed, [disallow] (Forbidden); else 200 (OK) with the resource as
    body.  In every case the heap and the collection are as before. *)
Theorem get_sequence ctx w :
  let id := baseName ctx in
  (collection w !! id = None →
     run (get ctx) w = (Status 404, log (CallGet id) w))
  ∧ (∀ r s, collection w !! id = Some r → heap w !! r = Some s →
     isJson ctx = false → createCustomFn ctx "get" s = None →
     run (get ctx) w =
       (Status 415,
        mkWorld (heap w) (collection w)
                (trace w ++ [CallGet id; CallCreateCustomFn "get" r])))
  ∧ (∀ r s fn, collection w !! id = Some r → heap w !! r = Some s →
     isJson ctx = false → createCustomFn ctx "get" s = Some fn →
     run (get ctx) w =
       (Handoff fn,
        mkWorld (heap w) (collection w)
                (trace w ++ [CallGet id; CallCreateCustomFn "get" r])))
  ∧ (∀ r s, collection w !! id = Some r → heap w !! r = Some s →
     isJson ctx = true → rights ctx Read s = false →
     run (get ctx) w =
       (Disallowed r,
        mkWorld (heap w) (collection w) (trace w ++ [CallGet id; CallMay Read r])))
  ∧ (∀ r s, collection w !! id = Some r → heap w !! r = Some s →
     isJson ctx = true → rights ctx Read s = true →
     run (get ctx) w =
       (StatusBody 200 r,
        mkWorld (heap w) (collection w) (trace w ++ [CallGet id; CallMay Read r]))).
Proof.
  intros id. unfold get. fold id.
  split; [|split; [|split; [|split]]].
  - intros Hnone. by run_handler.
  - intros r s Hr Hs Hjson Hfn. rewrite Hjson. by run_handler.
  - intros r s fn Hr Hs Hjson Hfn. rewrite Hjson. by run_handler.
  - intros r s Hr Hs Hjson Hdeny. rewrite Hjson. by run_handler.
  - intros r s Hr Hs Hjson Hok. rewrite Hjson. by run_handler.
Qed.

(** C9. A request for a representation other than the default, on a
    resource for which a formatter is registered: item GET and item PATCH
    call [collection.get] and [context.createCustomFn] and then the
    formatter, and nothing else; no rights check, no edit and no commit is
    made, and the heap and the collection are as before. *)
Theorem custom_format_skips_rights ctx obj w r s :
  isJson ctx = false →
  collection w !! baseName ctx = Some r →
  heap w !! r = Some s →
  (∀ fn, createCustomFn ctx "get" s = Some fn →
     run (get ctx) w =
       (Handoff fn,
        mkWorld (heap w) (collection w)
                (trace w ++ [CallGet (baseName ctx); CallCreateCustomFn "get" r])))
  ∧ (∀ fn, createCustomFn ctx "patch" s = Some fn →
     run (patch notifier ctx obj) w =
       (Handoff fn,
        mkWorld (heap w) (collection w)
                (trace w ++ [CallGet (baseName ctx); CallCreateCustomFn "patch" r]))).
Proof.
  intros Hjson Hr Hs. split; intros fn Hfn.
  - unfold get. rewrite Hjson. by run_handler.
  - unfold patch. rewrite Hjson. by run_handler.
Qed.

(** C10. Item PATCH edits the instance that [collection.get] returned, in
    place and before [collection.set] is called: when the edit succeeds and
    the persistence notifier then fails, the outcome is 500 (InternalError)
    and the collection holds the edited state under the identifier; nothing
    is rolled back. *)
Theorem patch_keeps_edit_on_notifier_failure ctx obj w r s s' :
  isJson ctx = true →
  collection w !! baseName ctx = Some r →
  heap w !! r = Some s →
  rights ctx Update s = true →
  edit s obj = Returned s' →
  notifier [baseName ctx] = PersistError →
  ∃ w', run (patch notifier ctx obj) w = (Status 500, w')
    ∧ resource_at w' (baseName ctx) = Some s'
    ∧ calls w w' = [CallGet (baseName ctx); CallMay Update r; CallEdit r obj;
                    CallSet (baseName ctx) r].
Proof.
  intros Hjson Hr Hs Hok Hret Hfail.
  pose proof (patch_commits ctx obj w r s s' Hjson Hr Hs Hok Hret) as Hcommit.
  rewrite Hfail in Hcommit.
  eexists. split; [exact Hcommit|]. split.
  - unfold resource_at. cbn. rewrite lookup_insert_eq. cbn.
    apply list_lookup_insert_eq. by eapply lookup_lt_Some.
  - by apply calls_app.
Qed.

End ItemHandlers.

Section CollectionPut.
Context {R Fn : Type} `{!Resource R}.
Implicit Types (ctx : Context R Fn) (w : World R) (data : Value).
Implicit Types (resources : gmap string nat) (toDelete : list (string * nat)).
Implicit Types (ids : list string).

(** One turn of the first loop. *)
Lemma putAll_item_run ctx data id resources toDelete w :
  ∃ out w' evs,
    putAll_item ctx data id resources toDelete w = (out, w')
    ∧ collection w' = collection w
    ∧ trace w' = trace w ++ evs
    ∧ Forall (λ e, is_commit e = false) evs
    ∧ length (heap w) ≤ length (heap w')
    ∧ (∀ r, collection w !! id ≠ Some r → r < length (heap w) →
            heap w' !! r = heap w !! r)
    ∧ match out with
      | inl o =>
          item_failure ctx data w id = Some (outcome_kind o)
          ∧ (o = Status 400 ∨ ∃ r, o = Disallowed r)
      | inr (resources', toDelete') =>
          item_failure ctx data w id = None
          ∧ ∃ r, resources' = assign id r resources
              ∧ heap w' !! r = updated_state data w id
              ∧ is_Some (heap w' !! r)
              ∧ match collection w !! id with
                | None => r = length (heap w) ∧ toDelete' = toDelete
                | Some r0 => r = r0 ∧ toDelete' = delete_property id toDelete
                end
      end.
Proof.
  unfold putAll_item, item_failure, updated_state. unfold_M.
  destruct (collection w !! id) as [r0|] eqn:Hid; cbn.
  - destruct (heap w !! r0) as [s0|] eqn:Hs0; cbn.
    + destruct (rights ctx Update s0) eqn:Hok; cbn.
      * rewrite Hs0.
        assert (Hlt : r0 < length (heap w)) by (by eapply lookup_lt_Some).
        destruct (edit s0 (get_prop data id)) as [s1|s1] eqn:Hedit; cbn;
          (eexists _, _, _; split; [reflexivity|]; cbn;
           split; [done|]; split; [by rewrite <- !app_assoc|];
           split; [by repeat constructor|];
           split; [by rewrite length_insert|];
           split; [by intros r Hr _; apply list_lookup_insert_ne; congruence|]).
        -- split; [done|]. exists r0. rewrite list_lookup_insert_eq by done. eauto.
        -- eauto.
      * eexists _, _, _; split; [reflexivity|]; cbn.
        split; [done|]. split; [by rewrite <- !app_assoc|].
        split; [by repeat constructor|]. repeat split; eauto.
    + eexists _, _, _; split; [reflexivity|]; cbn.
      split; [done|]. split; [by rewrite <- !app_assoc|].
      split; [by repeat constructor|]. repeat split; eauto.
  - destruct (construct id (get_prop data id)) as [s|] eqn:Hnew; cbn.
    + rewrite list_lookup_middle by done. cbn.
      destruct (rights ctx Create s) eqn:Hok; cbn;
        (eexists _, _, _; split; [reflexivity|]; cbn;
         split; [done|]; split; [by rewrite <- !app_assoc|];
         split; [by repeat constructor|];
         split; [rewrite length_app; lia|];
         split; [by intros r _ Hr; apply lookup_app_l|]).
      * split; [done|]. exists (length (heap w)).
        rewrite list_lookup_middle by done. eauto.
      * eauto.
    + eexists _, _, _; split; [reflexivity|]; cbn.
      split; [done|]. split; [by rewrite <- !app_assoc|].
      split; [by repeat constructor|]. repeat split; eauto.
Qed.

(** The first loop, on any world: it leaves the collection alone, makes
    no commit, and touches no instance but those that identifiers of the
    payload designate. *)
Lemma putAll_items_run ctx data ids : ∀ resources toDelete w,
  ∃ out w' evs,
    putAll_items ctx data ids resources toDelete w = (out, w')
    ∧ collection w' = collection w
    ∧ trace w' = trace w ++ evs
    ∧ Forall (λ e, is_commit e = false) evs
    ∧ length (heap w) ≤ length (heap w')
    ∧ (∀ r, (∀ id, id ∈ ids → collection w !! id ≠ Some r) →
            r < length (heap w) → heap w' !! r = heap w !! r)
    ∧ match out with
      | inl o => o = Status 400 ∨ ∃ r, o = Disallowed r
      | inr (resources', toDelete') =>
          (∀ id, id ∈ ids → id ≠ "__proto__" → is_Some (resources' !! id))
          ∧ (∀ id, id ∉ ids ∨ id = "__proto__" → resources' !! id = resources !! id)
          ∧ toDelete'
            = filter (λ entry, ¬ (entry.1 ∈ ids ∧ is_Some (collection w !! entry.1)))
                     toDelete
      end.
Proof.
  induction ids as [|id ids IH]; intros resources toDelete w.
  - exists (inr (resources, toDelete)), w, []. cbn.
    split; [done|]. split; [done|]. split; [by rewrite app_nil_r|].
    split; [done|]. split; [done|]. split; [done|].
    split; [by intros id ?%elem_of_nil|]. split; [done|].
    induction toDelete as [|entry toDelete IHd]; [done|].
    rewrite filter_cons_True; [by f_equal|]. by intros [?%elem_of_nil _].
  - destruct (putAll_item_run ctx data id resources toDelete w)
      as (out1 & w1 & evs1 & Hrun1 & Hcoll1 & Htr1 & Hev1 & Hlen1 & Hframe1 & Hout1).
    cbn [putAll_items]. unfold mbind, M_bind. rewrite Hrun1.
    destruct out1 as [o|[resources1 toDelete1]].
    + exists (inl o), w1, evs1. repeat (split; [done|]).
      split; [|by destruct Hout1].
      intros r Hr ?. apply Hframe1; [|done]. apply Hr. by left.
    + destruct (IH resources1 toDelete1 w1)
        as (out & w' & evs & Hrun & Hcoll & Htr & Hev & Hlen & Hframe & Hout).
      exists out, w', (evs1 ++ evs). split; [done|].
      split; [congruence|].
      split; [by rewrite Htr, Htr1, app_assoc|].
      split; [by apply Forall_app|]. split; [lia|].
      split.
      { intros r Hr Hlt. rewrite Hframe, Hframe1; [done| |done| |lia].
        - apply Hr. by left.
        - intros id' Hid'. rewrite Hcoll1. apply Hr. by right. }
      destruct out as [o|[resources' toDelete']]; [done|].
      destruct Hout1 as (_ & r1 & -> & _ & _ & Hwhich).
      destruct Hout as (Hin & Hout & ->).
      split; [|split].
      * intros id' Hid' Hproto. destruct (decide (id' ∈ ids)); [by apply Hin|].
        apply elem_of_cons in Hid' as [->|?]; [|done].
        rewrite Hout by (by left). unfold assign. rewrite decide_False by done.
        rewrite lookup_insert_eq. eauto.
      * intros id' Hid'. unfold assign in Hout.
        destruct (decide (id = "__proto__")) as [->|Hne].
        -- apply Hout. destruct Hid' as [[_ ?]%not_elem_of_cons|?]; eauto.
        -- destruct Hid' as [[Hne' Hid']%not_elem_of_cons| ->].
           ++ rewrite Hout by (by left). by rewrite lookup_insert_ne.
           ++ rewrite Hout by (by right). by rewrite lookup_insert_ne.
      * rewrite Hcoll1.
        destruct (collection w !! id) as [r0|] eqn:Hid; destruct Hwhich as [_ ->].
        -- unfold delete_property. rewrite list_filter_filter.
           apply list_filter_iff. intros [id' r']. cbn. split.
           ++ intros [Hrest Hne] [[->|Hin']%elem_of_cons Hsome]; [done|].
              by apply Hrest.
           ++ intros Hall. split.
              ** intros [Hin' Hsome]. apply Hall. split; [by right|done].
              ** intros ->. apply Hall. split; [by left|]. by rewrite Hid.
        -- apply list_filter_iff. intros [id' r']. cbn. split.
           ++ intros Hrest [[->|Hin']%elem_of_cons Hsome].
              ** rewrite Hid in Hsome. by destruct Hsome.
              ** by apply Hrest.
           ++ intros Hall [Hin' Hsome]. apply Hall. split; [by right|done].
Qed.

(** The second loop: rights checks only. *)
Lemma putAll_deletions_run ctx (candidates : list (string * nat)) : ∀ w,
  ∃ out w' evs,
    putAll_deletions ctx candidates w = (out, w')
    ∧ heap w' = heap w
    ∧ collection w' = collection w
    ∧ trace w' = trace w ++ evs
    ∧ Forall (λ e, is_commit e = false) evs
    ∧ match out with
      | inl o =>
          (∃ r, o = Disallowed r)
          ∧ ¬ Forall (λ entry, may_delete ctx w entry.2 = true) candidates
      | inr _ => Forall (λ entry, may_delete ctx w entry.2 = true) candidates
      end.
Proof.
  induction candidates as [|[id r] candidates IH]; intros w.
  - exists (inr tt), w, []. cbn. by rewrite app_nil_r.
  - cbn [putAll_deletions]. unfold_M.
    destruct (from_option (rights ctx Delete) false (heap w !! r)) eqn:Hok; cbn.
    + destruct (IH (log (CallMay Delete r) w))
        as (out & w' & evs & Hrun & Hheap & Hcoll & Htr & Hev & Hout).
      unfold log in Hrun. rewrite Hrun.
      exists out, w', (CallMay Delete r :: evs).
      split; [done|]. split; [done|]. split; [done|].
      split; [by rewrite Htr; cbn; rewrite <- app_assoc|].
      split; [by constructor|].
      destruct out as [o|[]].
      * destruct Hout as [Ho Hnot]. split; [done|].
        intros Hall. apply Hnot. by apply Forall_cons in Hall as [_ ?].
      * by constructor.
    + eexists _, _, [CallMay Delete r]. split; [reflexivity|]. cbn.
      repeat (split; [by repeat constructor|]).
      split; [by eexists|].
      intros Hall. apply Forall_cons in Hall as [Hr _].
      unfold may_delete in Hr. cbn in Hr. congruence.
Qed.

(** The judgement of an identifier depends on the collection and on the
    instance the identifier designates only. *)
Lemma judgement_frame ctx data w w' id :
  collection w' = collection w →
  (∀ r, collection w !! id = Some r → heap w' !! r = heap w !! r) →
  item_failure ctx data w' id = item_failure ctx data w id
  ∧ updated_state data w' id = updated_state data w id.
Proof.
  intros Hcoll Hheap. unfold item_failure, updated_state. rewrite Hcoll.
  destruct (collection w !! id) as [r|]; [|done]. by rewrite Hheap.
Qed.

Lemma well_formed_frame w w' :
  collection w' = collection w → length (heap w) ≤ length (heap w') →
  well_formed w → well_formed w'.
Proof.
  intros Hcoll Hlen Hwf id r Hr. rewrite Hcoll in Hr.
  specialize (Hwf id r Hr). cbn in Hwf |- *. lia.
Qed.

Lemma alias_free_frame w w' :
  collection w' = collection w → alias_free w → alias_free w'.
Proof. unfold alias_free. by intros ->. Qed.

Lemma NoDup_snd_inj (entries : list (string * nat)) id1 id2 r :
  NoDup entries.*2 → (id1, r) ∈ entries → (id2, r) ∈ entries → id1 = id2.
Proof.
  induction entries as [|[id r'] entries IH]; cbn; intros Hnodup H1 H2.
  - by apply elem_of_nil in H1.
  - apply NoDup_cons in Hnodup as [Hfresh Hnodup].
    assert (Hsnd : ∀ id', (id', r) ∈ entries → r ∈ entries.*2).
    { intros id' Hin. apply list_elem_of_fmap. by exists (id', r). }
    apply elem_of_cons in H1 as [Heq1|H1];
      apply elem_of_cons in H2 as [Heq2|H2]; simplify_eq; try done.
    + destruct Hfresh. by eapply Hsnd.
    + destruct Hfresh. by eapply Hsnd.
    + by apply IH.
Qed.

Lemma alias_free_inj w id1 id2 r :
  alias_free w → collection w !! id1 = Some r → collection w !! id2 = Some r →
  id1 = id2.
Proof.
  intros Hfree H1%elem_of_map_to_list H2%elem_of_map_to_list.
  by eapply NoDup_snd_inj.
Qed.

Lemma fails_first_not_all ctx data w ids kind :
  fails_first ctx data w ids kind →
  ¬ Forall (λ id, item_passes ctx data w id = true) ids.
Proof.
  intros (passed & id & rest & -> & _ & Hfail) Hall.
  apply Forall_app in Hall as [_ Hall]. apply Forall_cons in Hall as [Hid _].
  unfold item_passes in Hid. by rewrite Hfail in Hid.
Qed.

(** The first loop on a collection without aliases and a payload without
    repeated identifiers: it runs to its end exactly when every identifier
    passes, judged on the world before the loop, and then [resources] holds
    for each identifier other than ["__proto__"] the instance in its
    created or updated state. *)
Lemma putAll_items_pass ctx data ids : ∀ resources toDelete w out w',
  NoDup ids → well_formed w → alias_free w →
  putAll_items ctx data ids resources toDelete w = (out, w') →
  match out with
  | inl o => fails_first ctx data w ids (outcome_kind o)
  | inr (resources', _) =>
      Forall (λ id, item_passes ctx data w id = true) ids
      ∧ ∀ id, id ∈ ids → id ≠ "__proto__" →
          ∃ r, resources' !! id = Some r
             ∧ heap w' !! r = updated_state data w id
             ∧ is_Some (heap w' !! r)
  end.
Proof.
  induction ids as [|id ids IH]; intros resources toDelete w out w' Hnodup Hwf Hfree Hrun.
  - cbn in Hrun. injection Hrun as <- <-. split; [done|].
    by intros id ?%elem_of_nil.
  - apply NoDup_cons in Hnodup as [Hfresh Hnodup].
    destruct (putAll_item_run ctx data id resources toDelete w)
      as (out1 & w1 & evs1 & Hrun1 & Hcoll1 & _ & _ & Hlen1 & Hframe1 & Hout1).
    cbn [putAll_items] in Hrun. unfold mbind, M_bind in Hrun. rewrite Hrun1 in Hrun.
    destruct out1 as [o|[resources1 toDelete1]].
    { injection Hrun as <- <-. destruct Hout1 as [Hfail _].
      by exists [], id, ids. }
    destruct Hout1 as (Hpass & r1 & -> & Hstate1 & Hsome1 & Hwhich).
    assert (Hwf1 : well_formed w1) by (by eapply well_formed_frame).
    assert (Hfree1 : alias_free w1) by (by eapply alias_free_frame).
    (* what the rest of the loop sees of the other identifiers *)
    assert (Hsame : ∀ id', id' ∈ ids →
              item_failure ctx data w1 id' = item_failure ctx data w id'
              ∧ updated_state data w1 id' = updated_state data w id').
    { intros id' Hid'. apply judgement_frame; [done|].
      intros r Hr. apply Hframe1; [|by eapply Hwf].
      intros Hidr. assert (id = id') by (by apply (alias_free_inj w id id' r)).
      congruence. }
    assert (Hsame_all : ∀ ids', ids' ⊆ ids →
              Forall (λ id, item_passes ctx data w1 id = true) ids' →
              Forall (λ id, item_passes ctx data w id = true) ids').
    { intros ids' Hsub. rewrite !Forall_forall. intros Hall id' Hid'.
      specialize (Hall id' Hid'). unfold item_passes in *.
      by destruct (Hsame id' (Hsub id' Hid')) as [<- _]. }
    (* the instance of this identifier is not designated by the others *)
    assert (Hmine : ∀ id', id' ∈ ids → collection w1 !! id' ≠ Some r1).
    { intros id' Hid' Hr. rewrite Hcoll1 in Hr.
      destruct (collection w !! id) as [r0|] eqn:Hid; destruct Hwhich as [-> _].
      - assert (id = id') by (by apply (alias_free_inj w id id' r0)). congruence.
      - specialize (Hwf id' _ Hr). cbn in Hwf. lia. }
    destruct (putAll_items_run ctx data ids (assign id r1 resources) toDelete1 w1)
      as (out' & w'' & _ & Hrun' & _ & _ & _ & _ & Hframe & Hout').
    rewrite Hrun in Hrun'. injection Hrun' as <- <-.
    specialize (IH _ _ _ _ _ Hnodup Hwf1 Hfree1 Hrun).
    assert (Hhead : item_passes ctx data w id = true).
    { unfold item_passes. by rewrite Hpass. }
    destruct out as [o|[resources' toDelete']].
    { destruct IH as (passed & id' & rest & -> & Hpassed & Hfail).
      exists (id :: passed), id', rest. split; [done|]. split.
      - apply Forall_cons. split; [done|]. apply Hsame_all; [|done].
        intros x Hx. apply elem_of_app. by left.
      - destruct (Hsame id') as [<- _]; [|done].
        apply elem_of_app. right. by left. }
    destruct IH as [Hall Hres]. destruct Hout' as (_ & Hkept & _).
    split.
    + apply Forall_cons. split; [done|]. by apply Hsame_all.
    + intros id' Hid' Hproto. destruct (decide (id' ∈ ids)) as [Hin|Hnotin].
      * destruct (Hres id' Hin Hproto) as (r & Hr & Hstate & Hsome).
        exists r. destruct (Hsame id' Hin) as [_ <-]. done.
      * apply elem_of_cons in Hid' as [->|?]; [|done].
        exists r1. rewrite Hkept by (by left). unfold assign.
        rewrite decide_False by done. rewrite lookup_insert_eq.
        assert (Hlt : r1 < length (heap w1)) by (by apply lookup_lt_is_Some).
        rewrite (Hframe r1 Hmine Hlt). done.
Qed.

(** A list of the properties of an object has exactly its entries. *)
Lemma enumerates_lookup (entries : list (string * nat)) (object : gmap string nat) id r :
  enumerates entries object → (id, r) ∈ entries ↔ object !! id = Some r.
Proof. intros [Hnodup <-]. by apply elem_of_list_to_map. Qed.

(** What one turn of the first loop leaves of the resource stored under
    its identifier: the state after its [edit] if the turn got that far,
    the state before otherwise. *)
Lemma putAll_item_state ctx data id resources toDelete w :
  resource_at (putAll_item ctx data id resources toDelete w).2 id
  = match item_failure ctx data w id with
    | None | Some BadRequest => state_after_edit data w id
    | Some _ => resource_at w id
    end.
Proof.
  unfold putAll_item, item_failure, state_after_edit, resource_at. unfold_M.
  destruct (collection w !! id) as [r0|] eqn:Hid; cbn.
  - destruct (heap w !! r0) as [s0|] eqn:Hs0; cbn.
    + destruct (rights ctx Update s0) eqn:Hok; cbn.
      * rewrite Hs0.
        assert (Hlt : r0 < length (heap w)) by (by eapply lookup_lt_Some).
        destruct (edit s0 (get_prop data id)) as [s1|s1] eqn:Hedit; cbn;
          rewrite Hid; cbn; by rewrite list_lookup_insert_eq.
      * by rewrite Hid.
    + by rewrite Hid.
  - destruct (construct id (get_prop data id)) as [s|] eqn:Hnew; cbn.
    + rewrite list_lookup_middle by done. cbn.
      destruct (rights ctx Create s) eqn:Hok; cbn; by rewrite Hid.
    + by rewrite Hid.
Qed.

Lemma state_frame data w w' id :
  collection w' = collection w →
  (∀ r, collection w !! id = Some r → heap w' !! r = heap w !! r) →
  state_after_edit data w' id = state_after_edit data w id
  ∧ resource_at w' id = resource_at w id.
Proof.
  intros Hcoll Hheap. unfold state_after_edit, resource_at. rewrite Hcoll.
  destruct (collection w !! id) as [r|]; [|done]. cbn. by rewrite Hheap.
Qed.

Lemma reached_sub ctx data w ids id :
  id ∈ reached ctx data w ids → id ∈ ids.
Proof.
  induction ids as [|id0 ids IH]; cbn; [done|].
  destruct (item_failure ctx data w id0) as [[]|].
  all: rewrite ?elem_of_cons, ?elem_of_nil; intros; tauto.
Qed.

Lemma reached_ext ctx data w w' ids :
  (∀ id, id ∈ ids → item_failure ctx data w' id = item_failure ctx data w id) →
  reached ctx data w' ids = reached ctx data w ids.
Proof.
  induction ids as [|id0 ids IH]; intros Hsame; cbn; [done|].
  rewrite Hsame by (by left). rewrite IH; [done|].
  intros id Hid. apply Hsame. by right.
Qed.

(** The stored resources after the first loop, however it ends, on a
    collection without aliases and a payload without repeated
    identifiers: those the loop reached are as their [edit] left them, all
    others as they were. *)
Lemma putAll_items_states ctx data ids : ∀ resources toDelete w,
  NoDup ids → well_formed w → alias_free w →
  ∀ id, resource_at (putAll_items ctx data ids resources toDelete w).2 id
        = if decide (id ∈ reached ctx data w ids)
          then state_after_edit data w id
          else resource_at w id.
Proof.
  induction ids as [|id0 ids IH]; intros resources toDelete w Hnodup Hwf Hfree id.
  - cbn. rewrite decide_False; [done|]. by intros ?%elem_of_nil.
  - apply NoDup_cons in Hnodup as [Hfresh Hnodup].
    pose proof (putAll_item_state ctx data id0 resources toDelete w) as Hstate.
    destruct (putAll_item_run ctx data id0 resources toDelete w)
      as (out1 & w1 & _ & Hrun1 & Hcoll1 & _ & _ & Hlen1 & Hframe1 & Hout1).
    rewrite Hrun1 in Hstate. cbn [snd] in Hstate.
    cbn [putAll_items reached]. unfold mbind, M_bind. rewrite Hrun1.
    (* the instances of the other identifiers are untouched *)
    assert (Hothers : ∀ id', id' ≠ id0 →
              ∀ r, collection w !! id' = Some r → heap w1 !! r = heap w !! r).
    { intros id' Hne r Hr. apply Hframe1; [|by eapply Hwf].
      intros Hr0. apply Hne. by apply (alias_free_inj w id' id0 r). }
    destruct out1 as [o|[resources1 toDelete1]].
    + cbn [snd]. destruct Hout1 as [Hfail Ho]. rewrite Hfail in Hstate |- *.
      destruct (decide (id = id0)) as [->|Hne].
      * rewrite Hstate. destruct Ho as [->|[r ->]]; cbn.
        -- rewrite decide_True; [done|]. by left.
        -- rewrite decide_False; [done|]. by intros ?%elem_of_nil.
      * destruct (state_frame data w w1 id Hcoll1 (Hothers id Hne)) as [_ ->].
        destruct Ho as [->|[r ->]]; cbn; rewrite decide_False; try done.
        -- by intros [?|?%elem_of_nil]%elem_of_cons.
        -- by intros ?%elem_of_nil.
    + destruct Hout1 as [Hpass _]. rewrite Hpass in Hstate |- *.
      assert (Hwf1 : well_formed w1) by (by eapply well_formed_frame).
      assert (Hfree1 : alias_free w1) by (by eapply alias_free_frame).
      rewrite (IH resources1 toDelete1 w1 Hnodup Hwf1 Hfree1 id).
      rewrite (reached_ext ctx data w w1 ids).
      2:{ intros id' Hid'. apply judgement_frame; [done|].
          apply Hothers. by intros ->. }
      destruct (decide (id = id0)) as [->|Hne].
      * rewrite decide_False by (by intros ?%reached_sub).
        rewrite decide_True by (by left). done.
      * destruct (state_frame data w w1 id Hcoll1 (Hothers id Hne)) as [-> ->].
        destruct (decide (id ∈ reached ctx data w ids)) as [Hin|Hout].
        -- rewrite decide_True; [done|]. by right.
        -- rewrite decide_False; [done|]. by intros [?|?]%elem_of_cons.
Qed.

End CollectionPut.

Section CollectionPutRuns.
Context {R Fn : Type} `{!Resource R}.
Variable notifier : list string → Persisted.
Variable order : KeyOrder.
Implicit Types (ctx : Context R Fn) (w : World R) (data : Value).

(** The course of [putAll]: the shape check, the two loops, the commit. *)
Lemma putAll_cases ctx data w :
  ∃ o w',
    run (putAll notifier order ctx data) w = (o, w')
    ∧ ((truthy data = false ∨ typeof data ≠ "object") ∧ o = Status 400 ∧ w' = w
       ∨ truthy data = true ∧ typeof data = "object"
         ∧ ∃ out1 w1,
             putAll_items ctx data (object_keys data) ∅
                          (entries_of order (collection w))
                          (log CallGetMap w) = (out1, w1)
             ∧ match out1 with
               | inl o1 => o = o1 ∧ w' = w1
               | inr (resources, toDelete) =>
                   ∃ out2 w2,
                     putAll_deletions ctx toDelete w1 = (out2, w2)
                     ∧ match out2 with
                       | inl o2 => o = o2 ∧ w' = w2
                       | inr _ =>
                           o = match notifier (affected_ids (collection w2) resources) with
                               | PersistError => Status 500
                               | PersistOk => Status 204
                               end
                           ∧ w' = mkWorld (heap w2) resources
                                          (trace w2 ++ [CallSetAll resources])
                       end
               end).
Proof.
  unfold putAll.
  destruct (truthy data) eqn:Htruthy; cbn [negb orb];
    [destruct (String.eqb (typeof data) "object") eqn:Htype; cbn [negb]|].
  - apply String.eqb_eq in Htype.
    unfold run, mbind, M_bind, coll_getMap. 
    destruct (putAll_items ctx data (object_keys data) ∅
                (entries_of order (collection w))
                (log CallGetMap w)) as [[o1|[resources toDelete]] w1] eqn:Hitems.
    + exists o1, w1. split; [done|]. right. do 2 (split; [done|]).
      by exists (inl o1), w1.
    + destruct (putAll_deletions ctx toDelete w1)
        as [[o2|[]] w2] eqn:Hdel.
      * exists o2, w2. split; [done|]. right. do 2 (split; [done|]).
        exists (inr (resources, toDelete)), w1. split; [done|].
        by exists (inl o2), w2.
      * unfold coll_setAll, finish.
        exists (match notifier (affected_ids (collection w2) resources) with
                | PersistError => Status 500
                | PersistOk => Status 204
                end),
               (mkWorld (heap w2) resources (trace w2 ++ [CallSetAll resources])).
        split.
        { by destruct (notifier (affected_ids (collection w2) resources)). }
        right. do 2 (split; [done|]).
        exists (inr (resources, toDelete)), w1. split; [done|].
        by exists (inr ()), w2.
  - apply String.eqb_neq in Htype. exists (Status 400), w. split; [done|].
    left. eauto.
  - exists (Status 400), w. split; [done|]. left. eauto.
Qed.

Lemma dom_of_keys (resources : gmap string nat) data :
  (∀ id, id ∈ object_keys data → id ≠ "__proto__" → is_Some (resources !! id)) →
  (∀ id, id ∉ object_keys data ∨ id = "__proto__" →
         resources !! id = (∅ : gmap string nat) !! id) →
  dom resources = list_to_set (assigned_keys data).
Proof.
  intros Hin Hout. apply set_eq. intros id.
  rewrite elem_of_dom, elem_of_list_to_set. unfold assigned_keys.
  rewrite list_elem_of_filter. split.
  - intros Hsome. destruct (decide (id = "__proto__")) as [->|Hne].
    { rewrite Hout, lookup_empty in Hsome by (by right). by destruct Hsome. }
    split; [done|]. destruct (decide (id ∈ object_keys data)) as [|Hno]; [done|].
    rewrite Hout, lookup_empty in Hsome by (by left). by destruct Hsome.
  - intros [Hne Hid]. by apply Hin.
Qed.

Lemma list_filter_iff_in {A} (P Q : A → Prop)
    `{!∀ x, Decision (P x)} `{!∀ x, Decision (Q x)} (l : list A) :
  (∀ x, x ∈ l → P x ↔ Q x) → filter P l = filter Q l.
Proof.
  induction l as [|x l IH]; intros Hiff; [done|].
  assert (Hx : P x ↔ Q x) by (apply Hiff; by left).
  assert (Hl : filter P l = filter Q l).
  { apply IH. intros y Hy. apply Hiff. by right. }
  destruct (decide (P x)) as [HP|HP].
  - rewrite !filter_cons_True by tauto. by rewrite Hl.
  - rewrite !filter_cons_False by tauto. done.
Qed.

(** After the first loop has run to its end, [toDelete] holds the
    deletion candidates, in the order of the collection's keys. *)
Lemma toDelete_candidates data w :
  filter (λ entry, ¬ (entry.1 ∈ object_keys data ∧ is_Some (collection w !! entry.1)))
         (entries_of order (collection w))
  = candidates_in_order order data w.
Proof.
  unfold candidates_in_order. apply list_filter_iff_in. intros [id r] Hin. cbn.
  apply (enumerates_lookup _ (collection w)) in Hin; [|apply entries_of_enumerates].
  split; [|by intros Hno [? _]].
  intros Hnot Hid. apply Hnot. split; [done|]. by rewrite Hin.
Qed.

Lemma candidates_lookup data w id r :
  (id, r) ∈ candidates_in_order order data w
  ↔ deletion_candidates data w !! id = Some r.
Proof.
  unfold candidates_in_order, deletion_candidates.
  rewrite list_elem_of_filter, map_lookup_filter_Some. cbn.
  rewrite (enumerates_lookup _ (collection w)) by apply entries_of_enumerates.
  tauto.
Qed.

(** To allow the deletion of every candidate is the same in any order. *)
Lemma candidates_allowed ctx data w :
  Forall (λ entry, may_delete ctx w entry.2 = true) (candidates_in_order order data w)
  ↔ map_Forall (λ _ r, may_delete ctx w r = true) (deletion_candidates data w).
Proof.
  rewrite Forall_forall. split.
  - intros Hall id r Hr. by apply (Hall (id, r)), candidates_lookup.
  - intros Hall [id r] Hin. cbn. by apply (Hall id r), candidates_lookup.
Qed.

(** What [putAll] does with a payload that passes the shape check, on any
    world: either it ends on a failed check, having made no commit and
    left the collection alone, or it commits once, last, the mapping of
    the payload's identifiers that assignment makes keys.  Either way no
    instance is touched but those that identifiers of the payload
    designate. *)
Lemma putAll_outline ctx data w :
  truthy data = true → typeof data = "object" →
  ∃ o w' evs,
    run (putAll notifier order ctx data) w = (o, w')
    ∧ trace w' = trace w ++ CallGetMap :: evs
    ∧ (∀ r, (∀ id, id ∈ object_keys data → collection w !! id ≠ Some r) →
            r < length (heap w) → heap w' !! r = heap w !! r)
    ∧ (((o = Status 400 ∨ ∃ r, o = Disallowed r)
        ∧ collection w' = collection w
        ∧ Forall (λ e, is_commit e = false) evs)
       ∨ (∃ before resources,
            evs = before ++ [CallSetAll resources]
            ∧ Forall (λ e, is_commit e = false) before
            ∧ collection w' = resources
            ∧ dom resources = list_to_set (assigned_keys data)
            ∧ o = match notifier (affected_ids (collection w) resources) with
                  | PersistError => Status 500
                  | PersistOk => Status 204
                  end)).
Proof.
  intros Htruthy Htype.
  destruct (putAll_cases ctx data w) as (o & w' & Hrun & [([E|E] & _)|Hcase]);
    [congruence..|].
  destruct Hcase as (_ & _ & out1 & w1 & Hitems & Hout1).
  destruct (putAll_items_run ctx data (object_keys data) ∅
              (entries_of order (collection w)) (log CallGetMap w))
    as (out1' & w1' & evs1 & Hitems' & Hcoll1 & Htr1 & Hev1 & Hlen1 & Hframe1 & Hres1).
  rewrite Hitems in Hitems'. injection Hitems' as <- <-.
  cbn in Hcoll1, Htr1, Hlen1, Hframe1. rewrite <- app_assoc in Htr1. cbn in Htr1.
  destruct out1 as [o1|[resources toDelete]].
  { destruct Hout1 as [-> ->]. exists o1, w1, evs1.
    split; [done|]. split; [done|]. split; [done|]. left. done. }
  destruct Hout1 as (out2 & w2 & Hdel & Hout2).
  destruct (putAll_deletions_run ctx toDelete w1)
    as (out2' & w2' & evs2 & Hdel' & Hheap2 & Hcoll2 & Htr2 & Hev2 & Hres2).
  rewrite Hdel in Hdel'. injection Hdel' as <- <-.
  destruct out2 as [o2|[]].
  { destruct Hout2 as [-> ->]. exists o2, w2, (evs1 ++ evs2).
    split; [done|].
    split; [by rewrite Htr2, Htr1, <- app_assoc|].
    split; [by rewrite Hheap2|]. left.
    split; [right; by destruct Hres2|].
    split; [congruence|]. by apply Forall_app. }
  destruct Hout2 as [-> ->].
  eexists _, _, ((evs1 ++ evs2) ++ [CallSetAll resources]).
  split; [done|]. cbn.
  split; [by rewrite Htr2, Htr1, <- !app_assoc|].
  split; [by rewrite Hheap2|]. right.
  exists (evs1 ++ evs2), resources.
  split; [done|]. split; [by apply Forall_app|]. split; [done|].
  destruct Hres1 as (Hin & Hout & _).
  split; [by apply dom_of_keys|].
  by rewrite Hcoll2, Hcoll1.
Qed.

(** The verdict of [putAll] on a collection without aliases and a payload
    without repeated identifiers: it commits exactly when every identifier
    and every deletion candidate passes, judged on the world before the
    call; and after the commit each identifier of the payload that became
    a key has its created or updated state. *)
Lemma putAll_verdict ctx data w :
  truthy data = true → typeof data = "object" →
  NoDup (object_keys data) → well_formed w → alias_free w →
  ∃ o w',
    run (putAll notifier order ctx data) w = (o, w')
    ∧ (all_pass ctx data w
       ∧ (o = Status 204 ∨ o = Status 500)
       ∧ (∀ id, id ∈ assigned_keys data →
            is_Some (updated_state data w id)
            ∧ resource_at w' id = updated_state data w id)
       ∨ ¬ all_pass ctx data w
         ∧ (o = Status 400 ∨ ∃ r, o = Disallowed r)
         ∧ (fails_first ctx data w (object_keys data) (outcome_kind o)
            ∨ Forall (λ id, item_passes ctx data w id = true) (object_keys data)
              ∧ outcome_kind o = Forbidden)).
Proof.
  intros Htruthy Htype Hnodup Hwf Hfree.
  destruct (putAll_cases ctx data w) as (o & w' & Hrun & [([E|E] & _)|Hcase]);
    [congruence..|].
  exists o, w'. split; [done|]. clear Hrun.
  destruct Hcase as (_ & _ & out1 & w1 & Hitems & Hout1).
  pose proof (putAll_items_pass ctx data (object_keys data) ∅
                (entries_of order (collection w))
                (log CallGetMap w) out1 w1 Hnodup Hwf Hfree Hitems) as Hpass.
  destruct (putAll_items_run ctx data (object_keys data) ∅
              (entries_of order (collection w)) (log CallGetMap w))
    as (out1' & w1' & _ & Hitems' & Hcoll1 & _ & _ & _ & Hframe1 & Hres1).
  rewrite Hitems in Hitems'. injection Hitems' as <- <-.
  cbn in Hcoll1, Hframe1.
  destruct out1 as [o1|[resources toDelete]].
  { destruct Hout1 as [-> ->]. right.
    change (fails_first ctx data w (object_keys data) (outcome_kind o1)) in Hpass.
    split; [|split; [done|by left]].
    intros [Hall _]. by eapply fails_first_not_all. }
  destruct Hpass as [Hall Hstates]. destruct Hres1 as (_ & _ & Hdel1).
  cbn [collection log] in Hdel1. rewrite toDelete_candidates in Hdel1. subst toDelete.
  destruct Hout1 as (out2 & w2 & Hdel & Hout2).
  destruct (putAll_deletions_run ctx (candidates_in_order order data w) w1)
    as (out2' & w2' & _ & Hdel' & Hheap2 & _ & _ & _ & Hres2).
  rewrite Hdel in Hdel'. injection Hdel' as <- <-.
  (* the deletion candidates are judged as before the call *)
  assert (Hsame : Forall (λ entry, may_delete ctx w1 entry.2 = true)
                         (candidates_in_order order data w)
                  ↔ map_Forall (λ _ r, may_delete ctx w r = true)
                               (deletion_candidates data w)).
  { rewrite <- candidates_allowed, !Forall_forall.
    assert (Hsame : ∀ id r, (id, r) ∈ candidates_in_order order data w →
              may_delete ctx w1 r = may_delete ctx w r).
    { intros id r [Hr Hno]%candidates_lookup%map_lookup_filter_Some.
      cbn in Hno. unfold may_delete. rewrite Hframe1; [done| |by eapply Hwf].
      intros id' Hid' Hr'.
      assert (id' = id) by (by apply (alias_free_inj w id' id r)). congruence. }
    split; intros Hall' [id r] Hin; cbn;
      [rewrite <- (Hsame id r Hin)|rewrite (Hsame id r Hin)];
      apply (Hall' (id, r) Hin). }
  destruct out2 as [o2|[]].
  { destruct Hout2 as [-> ->]. destruct Hres2 as [[r ->] Hnot]. right.
    split; [|split; [right; by exists r|by right]].
    intros [_ Hdels]. apply Hnot. by apply Hsame. }
  destruct Hout2 as [-> ->]. left.
  split; [split; [done|by apply Hsame]|].
  split; [by destruct (notifier _); eauto|].
  intros id [Hproto Hid]%list_elem_of_filter.
  destruct (Hstates id Hid Hproto) as (r & Hr & Hstate & Hsome).
  unfold resource_at. cbn. rewrite Hr. cbn. rewrite Hheap2.
  change (updated_state data (log CallGetMap w) id)
    with (updated_state data w id) in Hstate.
  split; [by rewrite <- Hstate|done].
Qed.

(** ** The invariants of the collection

    A collection that is well formed and without aliases stays so under
    the handlers: instances are created fresh, and stored under the
    identifier they were created or found under. *)

Lemma alias_free_of_inj w :
  (∀ id1 id2 r, collection w !! id1 = Some r → collection w !! id2 = Some r →
                id1 = id2) →
  alias_free w.
Proof.
  intros Hinj. unfold alias_free.
  apply NoDup_fmap_2_strong; [|apply NoDup_map_to_list].
  intros [id1 r1] [id2 r2] H1%elem_of_map_to_list H2%elem_of_map_to_list Heq.
  cbn in Heq. subst r2. f_equal. by eapply Hinj.
Qed.

Lemma gathered_grows w0 w w1 resources :
  length (heap w) ≤ length (heap w1) → gathered w0 w resources →
  gathered w0 w1 resources.
Proof.
  intros Hlen [Hfrom Hinj]. split; [|done]. intros id r Hr.
  destruct (Hfrom id r Hr) as [|[? ?]]; [by left|right]. split; [done|lia].
Qed.

Lemma putAll_items_gathered ctx data w0 ids : ∀ resources toDelete w resources' toDelete' w',
  well_formed w0 → alias_free w0 →
  collection w = collection w0 → length (heap w0) ≤ length (heap w) →
  gathered w0 w resources →
  putAll_items ctx data ids resources toDelete w = (inr (resources', toDelete'), w') →
  gathered w0 w' resources' ∧ length (heap w0) ≤ length (heap w').
Proof.
  intros resources toDelete w resources' toDelete' w' Hwf Hfree.
  revert resources toDelete w.
  induction ids as [|id ids IH]; intros resources toDelete w Hcoll Hlen Hgathered Hrun.
  - cbn in Hrun. by injection Hrun as <- <- <-.
  - destruct (putAll_item_run ctx data id resources toDelete w)
      as (out1 & w1 & _ & Hrun1 & Hcoll1 & _ & _ & Hlen1 & _ & Hout1).
    cbn [putAll_items] in Hrun. unfold mbind, M_bind in Hrun. rewrite Hrun1 in Hrun.
    destruct out1 as [o|[resources1 toDelete1]]; [done|].
    destruct Hout1 as (_ & r1 & -> & _ & Hsome1 & Hwhich).
    apply lookup_lt_is_Some in Hsome1.
    apply (IH (assign id r1 resources) toDelete1 w1); [congruence|lia| |done].
    unfold assign. destruct (decide (id = "__proto__")) as [_|_];
      [by apply (gathered_grows w0 w)|].
    destruct Hgathered as [Hfrom Hinj]. rewrite Hcoll in Hwhich. split.
    + intros id' r. destruct (decide (id' = id)) as [->|Hne].
      * rewrite lookup_insert_eq. intros [= <-].
        destruct (collection w0 !! id) as [r0|]; destruct Hwhich as [-> _];
          [by left|right]. split; [done|lia].
      * rewrite lookup_insert_ne by done. intros Hr.
        destruct (Hfrom id' r Hr) as [|[? ?]]; [by left|right]. split; [done|lia].
    + assert (Hnew : ∀ id', id' ≠ id → resources !! id' = Some r1 → False).
      { intros id' Hne Hr. destruct (Hfrom id' r1 Hr) as [Hold|[Hnone Hfresh]].
        - destruct (collection w0 !! id) as [r0|] eqn:Hid; destruct Hwhich as [-> _].
          + destruct Hne. by apply (alias_free_inj w0 id' id r0).
          + specialize (Hwf id' _ Hold). cbn in Hwf. lia.
        - destruct (collection w0 !! id) as [r0|] eqn:Hid; destruct Hwhich as [-> _].
          + specialize (Hwf id _ Hid). cbn in Hwf. lia.
          + lia. }
      intros id1 id2 r.
      destruct (decide (id1 = id)) as [->|Hne1]; destruct (decide (id2 = id)) as [->|Hne2];
        rewrite ?lookup_insert_eq, ?lookup_insert_ne by done; try done.
      * intros [= <-] Hr. by destruct (Hnew id2).
      * intros Hr [= <-]. by destruct (Hnew id1).
      * apply Hinj.
Qed.

(** Collection PUT keeps the invariants, whatever its outcome. *)
Lemma putAll_keeps_invariants ctx data w o w' :
  well_formed w → alias_free w →
  run (putAll notifier order ctx data) w = (o, w') →
  well_formed w' ∧ alias_free w'.
Proof.
  intros Hwf Hfree Hrun.
  destruct (putAll_cases ctx data w) as (o' & w'' & Hrun' & Hcase).
  rewrite Hrun in Hrun'. injection Hrun' as <- <-.
  destruct Hcase as [(_ & _ & ->)|(_ & _ & out1 & w1 & Hitems & Hout1)]; [done|].
  destruct (putAll_items_run ctx data (object_keys data) ∅
              (entries_of order (collection w)) (log CallGetMap w))
    as (out1' & w1' & _ & Hitems' & Hcoll1 & _ & _ & Hlen1 & _).
  rewrite Hitems in Hitems'. injection Hitems' as <- <-. cbn in Hcoll1, Hlen1.
  destruct out1 as [o1|[resources toDelete]].
  { destruct Hout1 as [_ ->]. split.
    - by apply (well_formed_frame w).
    - by apply (alias_free_frame w). }
  destruct Hout1 as (out2 & w2 & Hdel & Hout2).
  destruct (putAll_deletions_run ctx toDelete w1)
    as (out2' & w2' & _ & Hdel' & Hheap2 & Hcoll2 & _).
  rewrite Hdel in Hdel'. injection Hdel' as <- <-.
  destruct out2 as [o2|[]].
  { destruct Hout2 as [_ ->]. split.
    - apply (well_formed_frame w); [congruence|by rewrite Hheap2|done].
    - apply (alias_free_frame w); [congruence|done]. }
  destruct Hout2 as [_ ->].
  destruct (putAll_items_gathered ctx data w (object_keys data) ∅
              (entries_of order (collection w))
              (log CallGetMap w) resources toDelete w1 Hwf Hfree eq_refl
              (Nat.le_refl _)) as [[Hfrom Hinj] _]; [|done|].
  { split; intros *; by rewrite lookup_empty. }
  split.
  - intros id r Hr. cbn in Hr |- *. rewrite Hheap2.
    destruct (Hfrom id r Hr) as [Hold|[_ ?]]; [|lia].
    specialize (Hwf id r Hold). cbn in Hwf. lia.
  - by apply alias_free_of_inj.
Qed.

(** Item PATCH and item GET leave the collection as it is, and the heap
    with the instances it had; so they keep the invariants too. *)
Lemma item_handlers_keep_collection ctx obj w :
  (collection (run (patch notifier ctx obj) w).2 = collection w
   ∧ length (heap (run (patch notifier ctx obj) w).2) = length (heap w))
  ∧ (collection (run (get ctx) w).2 = collection w
     ∧ heap (run (get ctx) w).2 = heap w).
Proof.
  unfold patch, get. unfold_M.
  destruct (collection w !! baseName ctx) as [r|] eqn:Hr; [|done].
  destruct (isJson ctx); cbn.
  - destruct (heap w !! r) as [s|] eqn:Hs; cbn; [|done].
    split; [|by destruct (rights ctx Read s)].
    destruct (rights ctx Update s); cbn; [|done].
    rewrite Hs.
    destruct (edit s obj); cbn; rewrite ?length_insert; [|done].
    destruct (notifier [baseName ctx]); cbn; by rewrite insert_id, length_insert.
  - split.
    + by destruct (heap w !! r ≫= createCustomFn ctx "patch").
    + by destruct (heap w !! r ≫= createCustomFn ctx "get").
Qed.

Lemma commit_is_setAll (evs : list Event) :
  Forall (λ e, is_commit e = false) evs → Forall (λ e, is_setAll e = false) evs.
Proof. intros Hev. eapply Forall_impl; [exact Hev|]. by intros []. Qed.

Lemma snapshot_lookup w id : snapshot w !! id = resource_at w id.
Proof. unfold snapshot, resource_at. by rewrite lookup_omap. Qed.

(** The stored resources after a collection PUT that ended on a failed
    check, on a collection without aliases and a payload without repeated
    identifiers. *)
Lemma putAll_failure_states ctx data w o w' :
  run (putAll notifier order ctx data) w = (o, w') →
  outcome_kind o = BadRequest ∨ outcome_kind o = Forbidden →
  NoDup (object_keys data) → well_formed w → alias_free w →
  ∀ id, resource_at w' id = after_failed_put ctx data w id.
Proof.
  intros Hrun Hkind Hnodup Hwf Hfree id. unfold after_failed_put.
  destruct (putAll_cases ctx data w) as (o' & w'' & Hrun' & Hcase).
  rewrite Hrun in Hrun'. injection Hrun' as <- <-.
  destruct Hcase as [(Hshape & _ & ->)|(_ & _ & out1 & w1 & Hitems & Hout1)].
  { assert (Hkeys : object_keys data = []).
    { destruct data; try done; destruct Hshape; done. }
    rewrite Hkeys. cbn. rewrite decide_False; [done|]. by intros ?%elem_of_nil. }
  pose proof (putAll_items_states ctx data (object_keys data) ∅
                (entries_of order (collection w)) (log CallGetMap w)
                Hnodup Hwf Hfree id) as Hstates.
  rewrite Hitems in Hstates. cbn [snd] in Hstates.
  rewrite (reached_ext ctx data w (log CallGetMap w)) in Hstates by done.
  change (state_after_edit data (log CallGetMap w) id)
    with (state_after_edit data w id) in Hstates.
  change (resource_at (log CallGetMap w) id) with (resource_at w id) in Hstates.
  destruct out1 as [o1|[resources toDelete]].
  { by destruct Hout1 as [_ ->]. }
  destruct Hout1 as (out2 & w2 & Hdel & Hout2).
  destruct (putAll_deletions_run ctx toDelete w1)
    as (out2' & w2' & _ & Hdel' & Hheap2 & Hcoll2 & _).
  rewrite Hdel in Hdel'. injection Hdel' as <- <-.
  destruct out2 as [o2|[]].
  - destruct Hout2 as [_ ->]. rewrite <- Hstates.
    unfold resource_at. by rewrite Hcoll2, Hheap2.
  - exfalso. destruct Hout2 as [-> _].
    destruct Hkind as [Hkind|Hkind];
      by destruct (notifier (affected_ids (collection w2) resources)).
Qed.

(** C1, amended. When collection PUT ends on a failed check (400,
    BadRequest, or [disallow], Forbidden), no commit has been made, the
    collection maps the same identifiers to the same instances as before,
    and every instance that no identifier of the payload designates is in
    the state it was in.  On a collection without aliases and a payload
    without repeated identifiers the state of every stored resource is
    known: a resource that the handler reached before it stopped (it is
    under an identifier of the payload that passed, or whose own [edit]
    threw) is in the state that its [edit] left it in, and every other
    resource is in the state it had before the call: the one whose
    update was denied, those under identifiers after the failing one, and
    those under identifiers that the payload does not have.  So when no
    stored resource was reached (three creations allowed and one update
    denied), the observable state is the one before the call. *)
Theorem putAll_failure_leaves_collection ctx data w o w' :
  run (putAll notifier order ctx data) w = (o, w') →
  outcome_kind o = BadRequest ∨ outcome_kind o = Forbidden →
  collection w' = collection w
  ∧ Forall (λ e, is_commit e = false) (calls w w')
  ∧ (∀ r, r < length (heap w) →
          (∀ id, id ∈ object_keys data → collection w !! id ≠ Some r) →
          heap w' !! r = heap w !! r)
  ∧ (well_formed w → alias_free w →
     ∀ id, id ∉ object_keys data → resource_at w' id = resource_at w id)
  ∧ (NoDup (object_keys data) → well_formed w → alias_free w →
     (∀ id, resource_at w' id = after_failed_put ctx data w id)
     ∧ (Forall (λ id, collection w !! id = None)
               (reached ctx data w (object_keys data)) →
        snapshot w' = snapshot w)).
Proof.
  intros Hrun Hkind.
  assert (Hgeneral : collection w' = collection w
    ∧ Forall (λ e, is_commit e = false) (calls w w')
    ∧ (∀ r, r < length (heap w) →
            (∀ id, id ∈ object_keys data → collection w !! id ≠ Some r) →
            heap w' !! r = heap w !! r)).
  { destruct (putAll_cases ctx data w) as (o' & w'' & Hrun' & Hcase).
    rewrite Hrun in Hrun'. injection Hrun' as <- <-.
    destruct Hcase as [(_ & _ & ->)|(Htruthy & Htype & _)].
    { split; [done|]. split; [|done]. unfold calls. by rewrite drop_all. }
    destruct (putAll_outline ctx data w Htruthy Htype)
      as (o' & w'' & evs & Hrun' & Htr & Hframe & Hcase).
    rewrite Hrun in Hrun'. injection Hrun' as <- <-.
    destruct Hcase as [(_ & Hcoll & Hev)|(before & resources & _ & _ & _ & _ & ->)].
    - split; [done|]. split; [|by intros r ? ?; apply Hframe].
      rewrite (calls_app w w' _ Htr). by constructor.
    - exfalso. destruct Hkind as [Hkind|Hkind];
        by destruct (notifier (affected_ids (collection w) resources)). }
  destruct Hgeneral as (Hcoll & Hev & Hframe). do 3 (split; [done|]).
  split.
  { intros Hwf Hfree id Hid. unfold resource_at. rewrite Hcoll.
    destruct (collection w !! id) as [r|] eqn:Hr; [cbn|done].
    apply Hframe; [by apply (Hwf id r)|].
    intros id' Hid' Hr'.
    assert (id' = id) by (by apply (alias_free_inj w id' id r)). congruence. }
  intros Hnodup Hwf Hfree.
  pose proof (putAll_failure_states ctx data w o w' Hrun Hkind Hnodup Hwf Hfree)
    as Hstates.
  split; [done|].
  intros Hnew. apply map_eq. intros id.
  rewrite !snapshot_lookup, Hstates. unfold after_failed_put.
  destruct (decide (id ∈ reached ctx data w (object_keys data))) as [Hin|]; [|done].
  rewrite Forall_forall in Hnew. specialize (Hnew id Hin).
  unfold state_after_edit, resource_at. by rewrite Hnew.
Qed.

(** X12. Collection PUT on a payload that passes the shape check: when
    every identifier of the payload passes its processing (instantiation
    and create rights if it is not in the collection, update rights and the
    edit if it is) and deletion is allowed for every resource under an
    identifier that the payload does not have, [setAll] is called exactly
    once, as the last call, with a mapping whose keys are the identifiers
    of the payload other than ["__proto__"]; otherwise [setAll] is not
    called and the outcome is 400 (BadRequest) or [disallow]
    (Forbidden). *)
Theorem putAll_commits_iff_all_pass ctx data w :
  truthy data = true → typeof data = "object" →
  NoDup (object_keys data) → well_formed w → alias_free w →
  ∃ o w',
    run (putAll notifier order ctx data) w = (o, w')
    ∧ (all_pass ctx data w
       ∧ (∃ before resources,
            calls w w' = before ++ [CallSetAll resources]
            ∧ Forall (λ e, is_setAll e = false) before
            ∧ dom resources = list_to_set (assigned_keys data))
       ∨ ¬ all_pass ctx data w
         ∧ Forall (λ e, is_setAll e = false) (calls w w')
         ∧ (fails_first ctx data w (object_keys data) (outcome_kind o)
            ∨ Forall (λ id, item_passes ctx data w id = true) (object_keys data)
              ∧ outcome_kind o = Forbidden)).
Proof.
  intros Htruthy Htype Hnodup Hwf Hfree.
  destruct (putAll_verdict ctx data w Htruthy Htype Hnodup Hwf Hfree)
    as (o & w' & Hrun & Hverdict).
  destruct (putAll_outline ctx data w Htruthy Htype)
    as (o' & w'' & evs & Hrun' & Htr & _ & Hcase).
  rewrite Hrun in Hrun'. injection Hrun' as <- <-.
  exists o, w'. split; [done|]. rewrite (calls_app w w' _ Htr).
  destruct Hverdict as [(Hall & Ho & _)|(Hnot & Ho & Hwhy)].
  - left. split; [done|].
    destruct Hcase as [([->|[r ->]] & _)|(before & resources & -> & Hev & _ & Hdom & _)];
      [by destruct Ho..|].
    exists (CallGetMap :: before), resources. split; [done|].
    split; [|done]. constructor; [done|]. by apply commit_is_setAll.
  - right. split; [done|].
    destruct Hcase as [(_ & _ & Hev)|(before & resources & _ & _ & _ & _ & ->)].
    + split; [constructor; [done|]; by apply commit_is_setAll|done].
    + exfalso.
      destruct Ho as [Ho|[r Ho]];
        by destruct (notifier (affected_ids (collection w) resources)).
Qed.

(** X13. When collection PUT ends with 204 (NoContent), that is when all
    checks and the persistence notifier succeed, the collection has
    exactly the identifiers of the payload other than ["__proto__"]:
    nothing is left under an identifier that the payload does not have,
    and, on a collection without aliases and a payload without repeated
    identifiers, every such identifier of the payload holds its created
    or updated state. *)
Theorem putAll_replaces_collection ctx data w w' :
  run (putAll notifier order ctx data) w = (Status 204, w') →
  dom (collection w') = list_to_set (assigned_keys data)
  ∧ (∀ id, id ∉ object_keys data → collection w' !! id = None)
  ∧ (NoDup (object_keys data) → well_formed w → alias_free w →
     ∀ id, id ∈ assigned_keys data →
       is_Some (updated_state data w id)
       ∧ resource_at w' id = updated_state data w id).
Proof.
  intros Hrun.
  destruct (putAll_cases ctx data w) as (o' & w'' & Hrun' & Hcase).
  rewrite Hrun in Hrun'. injection Hrun' as <- <-.
  destruct Hcase as [(_ & [=] & _)|(Htruthy & Htype & _)].
  destruct (putAll_outline ctx data w Htruthy Htype)
    as (o' & w'' & evs & Hrun' & _ & _ & Hcase).
  rewrite Hrun in Hrun'. injection Hrun' as <- <-.
  destruct Hcase as [([[=]|[r [=]]] & _)|(before & resources & _ & _ & Hcoll & Hdom & _)].
  rewrite Hcoll.
  split; [done|]. split.
  - intros id Hid. apply not_elem_of_dom. rewrite Hdom.
    rewrite elem_of_list_to_set. unfold assigned_keys.
    rewrite list_elem_of_filter. tauto.
  - intros Hnodup Hwf Hfree.
    destruct (putAll_verdict ctx data w Htruthy Htype Hnodup Hwf Hfree)
      as (o' & w'' & Hrun' & Hverdict).
    rewrite Hrun in Hrun'. injection Hrun' as <- <-.
    by destruct Hverdict as [(_ & _ & Hstates)|(_ & [[=]|[r [=]]] & _)].
Qed.

(** C7. A mutating operation that has passed all its checks reports what
    the persistence notifier reports: item PATCH and collection PUT end
    with 500 (InternalError) when the notifier fails and with 204
    (NoContent) when it succeeds.  So with a notifier that always fails
    they end with InternalError although every check passed. *)
Theorem notifier_failure_propagation ctx obj data w :
  (patch_checks_pass ctx obj w →
     (run (patch notifier ctx obj) w).1 = reported (notifier [baseName ctx]))
  ∧ (truthy data = true → typeof data = "object" →
     NoDup (object_keys data) → well_formed w → alias_free w →
     all_pass ctx data w →
     let result := run (putAll notifier order ctx data) w in
     result.1 = reported (notifier (affected_ids (collection w) (collection result.2))))
  ∧ ((∀ ids, notifier ids = PersistError) →
     (patch_checks_pass ctx obj w →
        outcome_kind (run (patch notifier ctx obj) w).1 = InternalError)
     ∧ (truthy data = true → typeof data = "object" →
        NoDup (object_keys data) → well_formed w → alias_free w →
        all_pass ctx data w →
        outcome_kind (run (putAll notifier order ctx data) w).1 = InternalError)).
Proof.
  assert (Hpatch : patch_checks_pass ctx obj w →
    (run (patch notifier ctx obj) w).1 = reported (notifier [baseName ctx])).
  { intros (Hjson & r & s & s' & Hr & Hs & Hok & Hret).
    by rewrite (patch_commits notifier ctx obj w r s s'). }
  assert (Hput : truthy data = true → typeof data = "object" →
     NoDup (object_keys data) → well_formed w → alias_free w →
     all_pass ctx data w →
     let result := run (putAll notifier order ctx data) w in
     result.1 = reported (notifier (affected_ids (collection w) (collection result.2)))).
  { intros Htruthy Htype Hnodup Hwf Hfree Hall.
    destruct (putAll_verdict ctx data w Htruthy Htype Hnodup Hwf Hfree)
      as (o & w' & Hrun & [(_ & Ho & _)|(Hnot & _)]); [|done].
    destruct (putAll_outline ctx data w Htruthy Htype)
      as (o' & w'' & evs & Hrun' & _ & _ & Hcase).
    rewrite Hrun in Hrun'. injection Hrun' as <- <-.
    cbn zeta. rewrite Hrun. cbn.
    destruct Hcase as [([->|[r ->]] & _)|(_ & resources & _ & _ & -> & _ & ->)];
      [by destruct Ho..|done]. }
  split; [done|]. split; [done|].
  intros Hfails. split.
  - intros Hpass. by rewrite (Hpatch Hpass), Hfails.
  - intros Htruthy Htype Hnodup Hwf Hfree Hall.
    cbn zeta in Hput. by rewrite Hput, Hfails.
Qed.

(** C8, amended. The shape check of collection PUT: a payload that is
    neither an object nor an array ([null], absent, a boolean, a number, a
    string) is answered 400 (BadRequest) and nothing else is done: no call
    is made, and the world is as before.  An object passes the check, and
    so does an array, which is then read as the mapping from its indices:
    the handler goes on to [collection.getMap]. *)
Theorem putAll_shape_check ctx data w :
  ((∀ props, data ≠ JObj props) → (∀ items, data ≠ JArr items) →
     run (putAll notifier order ctx data) w = (Status 400, w))
  ∧ ((∃ props, data = JObj props) ∨ (∃ items, data = JArr items) →
     ∃ o w' evs, run (putAll notifier order ctx data) w = (o, w')
               ∧ calls w w' = CallGetMap :: evs).
Proof.
  split.
  - intros Hobj Harr. unfold putAll.
    assert (Hshape : negb (truthy data)
                     || negb (String.eqb (typeof data) "object") = true).
    { destruct data as [| |b|n|str|items|props]; cbn; rewrite ?orb_true_r;
        try done; [by destruct (Harr items)|by destruct (Hobj props)]. }
    by rewrite Hshape.
  - intros Hshape.
    assert (truthy data = true ∧ typeof data = "object") as [Htruthy Htype].
    { by destruct Hshape as [[? ->]|[? ->]]. }
    destruct (putAll_outline ctx data w Htruthy Htype)
      as (o & w' & evs & Hrun & Htr & _).
    exists o, w', evs. split; [done|]. by apply calls_app.
Qed.

End CollectionPutRuns.

(** * The claims on the cellar of the README's beers *)

Lemma cellar_well_formed : well_formed Beer.cellar.
Proof. unfold well_formed. by_computation. Defined.

Lemma cellar_alias_free : alias_free Beer.cellar.
Proof. unfold alias_free. by_computation. Defined.

(** The shelf lists the cellar's beers as they were put in: [a], then
    [b]. *)
Example shelf_of_cellar :
  entries_of Beer.shelf (collection Beer.cellar) = [("a", 0); ("b", 1)].
Proof. vm_compute. reflexivity. Qed.

Lemma replacement_all_pass : all_pass (Beer.anyone "") Beer.replacement Beer.cellar.
Proof. unfold all_pass. by_computation. Defined.

(** C1: the payload [Beer.half_bad] on the cellar is answered 400, and beer
    [b] has been renamed all the same. *)
Lemma putAll_not_atomic :
  ¬ putAll_atomic Beer.saves Beer.shelf (Beer.anyone "") Beer.half_bad Beer.cellar.
Proof.
  unfold putAll_atomic. intros Hatomic.
  assert (Hsame : snapshot (run (putAll Beer.saves Beer.shelf (Beer.anyone "") Beer.half_bad)
                                Beer.cellar).2 !! "b"
                  = snapshot Beer.cellar !! "b").
  { rewrite Hatomic; [done|]. left. vm_compute. reflexivity. }
  vm_compute in Hsame. discriminate Hsame.
Qed.

Lemma putAll_failure_leaves_collection_witness :
  let denied := run (putAll Beer.saves Beer.shelf (Beer.context "" true true false true)
                            Beer.three_new_one_old) Beer.cellar in
  let broken := run (putAll Beer.saves Beer.shelf (Beer.anyone "") Beer.half_bad)
                    Beer.cellar in
  (outcome_kind denied.1 = Forbidden
   ∧ snapshot denied.2 = snapshot Beer.cellar)
  ∧ (outcome_kind broken.1 = BadRequest
     ∧ collection broken.2 = collection Beer.cellar
     ∧ Forall (λ e, is_commit e = false) (calls Beer.cellar broken.2)
     ∧ resource_at broken.2 "a" = resource_at Beer.cellar "a"
     ∧ resource_at broken.2 "b"
       = after_failed_put (Beer.anyone "") Beer.half_bad Beer.cellar "b").
Proof.
  cbv zeta. split.
  - split; [reflexivity|].
    set (denied := run (putAll Beer.saves Beer.shelf (Beer.context "" true true false true)
                               Beer.three_new_one_old) Beer.cellar).
    assert (Hrun : denied = (denied.1, denied.2)) by (vm_compute; reflexivity).
    destruct (putAll_failure_leaves_collection Beer.saves Beer.shelf
                (Beer.context "" true true false true) Beer.three_new_one_old
                Beer.cellar denied.1 denied.2 Hrun (or_intror eq_refl))
      as (_ & _ & _ & _ & Hstates).
    assert (Hnodup : NoDup (object_keys Beer.three_new_one_old)) by by_computation.
    destruct (Hstates Hnodup cellar_well_formed cellar_alias_free) as [_ Hsame].
    apply Hsame. by_computation.
  - split; [reflexivity|].
    set (broken := run (putAll Beer.saves Beer.shelf (Beer.anyone "") Beer.half_bad)
                       Beer.cellar).
    assert (Hrun : broken = (broken.1, broken.2)) by (vm_compute; reflexivity).
    destruct (putAll_failure_leaves_collection Beer.saves Beer.shelf (Beer.anyone "")
                Beer.half_bad Beer.cellar broken.1 broken.2 Hrun (or_introl eq_refl))
      as (Hcoll & Hcalls & _ & Hrest & Hstates).
    assert (Hnodup : NoDup (object_keys Beer.half_bad)) by by_computation.
    destruct (Hstates Hnodup cellar_well_formed cellar_alias_free) as [Hexact _].
    split; [exact Hcoll|]. split; [exact Hcalls|]. split; [|exact (Hexact "b")].
    apply (Hrest cellar_well_formed cellar_alias_free). by_computation.
Defined.

Lemma patch_json_sequence_witness :
  (run (patch Beer.saves (Beer.anyone "z") (Beer.info "Zwickel" 1)) Beer.cellar).1
    = Status 404
  ∧ (run (patch Beer.saves (Beer.context "a" true true false true)
               (Beer.info "Amber" 5)) Beer.cellar).1 = Disallowed 0
  ∧ (run (patch Beer.saves (Beer.anyone "a") JNull) Beer.cellar).1 = Status 400
  ∧ (run (patch Beer.fails (Beer.anyone "a") (Beer.info "Amber" 5)) Beer.cellar).1
    = Status 500
  ∧ (run (patch Beer.saves (Beer.anyone "a") (Beer.info "Amber" 5)) Beer.cellar).1
    = Status 204.
Proof.
  pose (ale := Beer.mk "a" (JStr "Ale") (JNum 1)).
  pose (amber := Beer.mk "a" (JStr "Amber") (JNum 5)).
  split; [|split; [|split; [|split]]].
  - destruct (patch_json_sequence Beer.saves (Beer.anyone "z") (Beer.info "Zwickel" 1)
                Beer.cellar eq_refl) as (Habsent & _).
    by rewrite (Habsent eq_refl).
  - destruct (patch_json_sequence Beer.saves (Beer.context "a" true true false true)
                (Beer.info "Amber" 5) Beer.cellar eq_refl) as (_ & Hdenied & _).
    by rewrite (Hdenied 0 ale eq_refl eq_refl eq_refl).
  - destruct (patch_json_sequence Beer.saves (Beer.anyone "a") JNull
                Beer.cellar eq_refl) as (_ & _ & Hthrown & _).
    by rewrite (Hthrown 0 ale ale eq_refl eq_refl eq_refl eq_refl).
  - destruct (patch_json_sequence Beer.fails (Beer.anyone "a") (Beer.info "Amber" 5)
                Beer.cellar eq_refl) as (_ & _ & _ & Hcommit).
    by rewrite (Hcommit 0 ale amber eq_refl eq_refl eq_refl eq_refl).
  - destruct (patch_json_sequence Beer.saves (Beer.anyone "a") (Beer.info "Amber" 5)
                Beer.cellar eq_refl) as (_ & _ & _ & Hcommit).
    by rewrite (Hcommit 0 ale amber eq_refl eq_refl eq_refl eq_refl).
Defined.

(** C3: a custom representation of beer [a] is asked for, a formatter is
    registered and read is not allowed: the formatter is called; the outcome
    is not Forbidden. *)
Lemma get_custom_format_skips_read_check :
  ¬ get_decides_in_three_steps (Beer.custom_context "a" false false) Beer.cellar.
Proof.
  intros Hclaim.
  specialize (Hclaim 0 (Beer.mk "a" (JStr "Ale") (JNum 1)) eq_refl eq_refl).
  vm_compute in Hclaim. discriminate Hclaim.
Qed.

Lemma get_sequence_witness :
  (run (get (Beer.anyone "z")) Beer.cellar).1 = Status 404
  ∧ (run (get (Beer.unformatted "a")) Beer.cellar).1 = Status 415
  ∧ (run (get (Beer.custom_context "a" false false)) Beer.cellar).1 = Handoff ()
  ∧ (run (get (Beer.context "a" true false true true)) Beer.cellar).1 = Disallowed 0
  ∧ (run (get (Beer.anyone "a")) Beer.cellar).1 = StatusBody 200 0.
Proof.
  pose (ale := Beer.mk "a" (JStr "Ale") (JNum 1)).
  split; [|split; [|split; [|split]]].
  - destruct (get_sequence (Beer.anyone "z") Beer.cellar) as (Habsent & _).
    by rewrite (Habsent eq_refl).
  - destruct (get_sequence (Beer.unformatted "a") Beer.cellar) as (_ & Hnone & _).
    by rewrite (Hnone 0 ale eq_refl eq_refl eq_refl eq_refl).
  - destruct (get_sequence (Beer.custom_context "a" false false) Beer.cellar)
      as (_ & _ & Hcustom & _).
    by rewrite (Hcustom 0 ale () eq_refl eq_refl eq_refl eq_refl).
  - destruct (get_sequence (Beer.context "a" true false true true) Beer.cellar)
      as (_ & _ & _ & Hdenied & _).
    by rewrite (Hdenied 0 ale eq_refl eq_refl eq_refl eq_refl).
  - destruct (get_sequence (Beer.anyone "a") Beer.cellar) as (_ & _ & _ & _ & Hread).
    by rewrite (Hread 0 ale eq_refl eq_refl eq_refl eq_refl).
Defined.

Lemma putAll_commits_iff_all_pass_witness :
  commit_decided_on_cellar ["b"; "c"] (Beer.anyone "") Beer.replacement
  ∧ commit_decided_on_cellar ["b"; "c"] (Beer.anyone "") Beer.half_bad
  ∧ commit_decided_on_cellar ["b"; "c"] (Beer.context "" true true true false)
                             Beer.replacement
  ∧ commit_decided_on_cellar [] (Beer.anyone "") Beer.proto_payload.
Proof.
  split; [|split; [|split]].
  - apply (putAll_commits_iff_all_pass Beer.saves Beer.shelf (Beer.anyone "") Beer.replacement
             Beer.cellar eq_refl eq_refl).
    + by_computation.
    + exact cellar_well_formed.
    + exact cellar_alias_free.
  - apply (putAll_commits_iff_all_pass Beer.saves Beer.shelf (Beer.anyone "") Beer.half_bad
             Beer.cellar eq_refl eq_refl).
    + by_computation.
    + exact cellar_well_formed.
    + exact cellar_alias_free.
  - apply (putAll_commits_iff_all_pass Beer.saves Beer.shelf (Beer.context "" true true true false)
             Beer.replacement Beer.cellar eq_refl eq_refl).
    + by_computation.
    + exact cellar_well_formed.
    + exact cellar_alias_free.
  - apply (putAll_commits_iff_all_pass Beer.saves Beer.shelf (Beer.anyone "")
             Beer.proto_payload Beer.cellar eq_refl eq_refl).
    + by_computation.
    + exact cellar_well_formed.
    + exact cellar_alias_free.
Defined.

Lemma putAll_replaces_collection_witness :
  let after := (run (putAll Beer.saves Beer.shelf (Beer.anyone "") Beer.replacement) Beer.cellar).2 in
  dom (collection after) = list_to_set ["b"; "c"]
  ∧ collection after !! "a" = None
  ∧ resource_at after "b" = Some (Beer.mk "b" (JStr "Bitter") (JNum 3))
  ∧ resource_at after "c" = Some (Beer.mk "c" (JStr "Cider") (JNum 4)).
Proof.
  cbv zeta.
  set (result := run (putAll Beer.saves Beer.shelf (Beer.anyone "") Beer.replacement) Beer.cellar).
  assert (Hrun : result = (Status 204, result.2)) by (vm_compute; reflexivity).
  destruct (putAll_replaces_collection Beer.saves Beer.shelf (Beer.anyone "") Beer.replacement
              Beer.cellar result.2 Hrun) as (Hdom & Hgone & Hstates).
  split; [exact Hdom|]. split; [apply Hgone; by_computation|].
  assert (Hnodup : NoDup (object_keys Beer.replacement)) by by_computation.
  split.
  - apply (Hstates Hnodup cellar_well_formed cellar_alias_free "b"). by_computation.
  - apply (Hstates Hnodup cellar_well_formed cellar_alias_free "c"). by_computation.
Defined.

(** The payload [{ "__proto__": ... }] on the cellar: the identifier is
    not in the collection, a beer is instantiated for it and its creation
    is allowed; the assignment [resources[id] = resource] then sets the
    prototype of [resources] and adds no key; the beers [a] and [b] may be
    deleted, and [setAll] is called with a mapping without keys. *)
Example proto_run :
  run (putAll Beer.saves Beer.shelf (Beer.anyone "") Beer.proto_payload) Beer.cellar
  = (Status 204,
     mkWorld [Beer.mk "a" (JStr "Ale") (JNum 1);
              Beer.mk "b" (JStr "Bock") (JNum 2);
              Beer.mk "__proto__" (JStr "Porter") (JNum 6)]
             ∅
             [CallGetMap;
              CallGet "__proto__";
              CallInstantiate "__proto__" (Beer.info "Porter" 6); CallMay Create 2;
              CallMay Delete 0; CallMay Delete 1;
              CallSetAll ∅]).
Proof. vm_compute. reflexivity. Qed.

Lemma proto_payload_all_pass :
  all_pass (Beer.anyone "") Beer.proto_payload Beer.cellar.
Proof. unfold all_pass. by_computation. Qed.

(** C4. The payload [{ "__proto__": { name: "Porter", rating: 6 } }] on
    the cellar: its one identifier passes its processing and both
    deletion candidates pass theirs, and [setAll] is called once, last;
    but the mapping it is called with is empty: it does not contain the
    identifier of the payload, which the specification says it does. *)
Theorem putAll_proto_key_not_passed :
  object_keys Beer.proto_payload = ["__proto__"]
  ∧ all_pass (Beer.anyone "") Beer.proto_payload Beer.cellar
  ∧ calls Beer.cellar
          (run (putAll Beer.saves Beer.shelf (Beer.anyone "") Beer.proto_payload)
               Beer.cellar).2
    = [CallGetMap;
       CallGet "__proto__";
       CallInstantiate "__proto__" (Beer.info "Porter" 6); CallMay Create 2;
       CallMay Delete 0; CallMay Delete 1]
      ++ [CallSetAll ∅]
  ∧ ¬ commits_iff_all_pass_on_cellar (Beer.anyone "") Beer.proto_payload.
Proof.
  split; [reflexivity|]. split; [exact proto_payload_all_pass|].
  split; [by rewrite proto_run|].
  intros (o & w' & Hrun & Hcase). rewrite proto_run in Hrun.
  injection Hrun as <- <-.
  destruct Hcase as [(_ & before & resources & Hcalls & _ & Hdom)|(Hnot & _)];
    [|exact (Hnot proto_payload_all_pass)].
  change (calls Beer.cellar _)
    with ([CallGetMap; CallGet "__proto__";
           CallInstantiate "__proto__" (Beer.info "Porter" 6); CallMay Create 2;
           CallMay Delete 0; CallMay Delete 1] ++ [CallSetAll ∅]) in Hcalls.
  apply app_inj_tail in Hcalls as [_ [= <-]].
  assert (Hin : "__proto__" ∈ dom (∅ : gmap string nat)).
  { rewrite Hdom. apply elem_of_list_to_set. by left. }
  by rewrite dom_empty in Hin.
Qed.

(** C5. The payload [{ "__proto__": { name: "Porter", rating: 6 } }] on
    the cellar, with every right granted and a notifier that succeeds:
    the outcome is 204 and the collection is empty afterwards.  Its
    identifiers are not those of the payload, as the specification says
    they are: ["__proto__"] was to be created. *)
Theorem putAll_proto_key_not_stored :
  let result := run (putAll Beer.saves Beer.shelf (Beer.anyone "") Beer.proto_payload)
                    Beer.cellar in
  result.1 = Status 204
  ∧ object_keys Beer.proto_payload = ["__proto__"]
  ∧ collection result.2 = ∅
  ∧ resource_at result.2 "__proto__" = None
  ∧ ¬ putAll_replaces_exactly Beer.saves Beer.shelf (Beer.anyone "")
        Beer.proto_payload Beer.cellar.
Proof.
  cbv zeta. rewrite proto_run. cbn [fst snd collection].
  split; [done|]. split; [done|]. split; [done|]. split; [done|].
  intros Hclaim. specialize (Hclaim _ proto_run). cbn [collection] in Hclaim.
  assert (Hin : "__proto__" ∈ dom (∅ : gmap string nat)).
  { rewrite Hclaim. apply elem_of_list_to_set. by left. }
  by rewrite dom_empty in Hin.
Qed.

Lemma absent_identifier_not_found_witness :
  collection Beer.cellar !! "z" = None
  ∧ run (get (Beer.anyone "z")) Beer.cellar = (Status 404, log (CallGet "z") Beer.cellar)
  ∧ run (patch Beer.saves (Beer.anyone "z") (Beer.info "Zwickel" 1)) Beer.cellar
    = (Status 404, log (CallGet "z") Beer.cellar).
Proof.
  split; [reflexivity|].
  destruct (absent_identifier_not_found Beer.saves (Beer.anyone "z")
              (Beer.info "Zwickel" 1) Beer.cellar eq_refl) as (_ & Hget & Hpatch & _).
  split; [exact Hget|exact Hpatch].
Defined.

Lemma amber_patch_checks_pass :
  patch_checks_pass (Beer.anyone "a") (Beer.info "Amber" 5) Beer.cellar.
Proof.
  split; [reflexivity|].
  exists 0, (Beer.mk "a" (JStr "Ale") (JNum 1)), (Beer.mk "a" (JStr "Amber") (JNum 5)).
  by repeat split.
Defined.

Lemma notifier_failure_propagation_witness :
  (run (patch Beer.fails (Beer.anyone "a") (Beer.info "Amber" 5)) Beer.cellar).1
    = Status 500
  ∧ (run (putAll Beer.fails Beer.shelf (Beer.anyone "") Beer.replacement) Beer.cellar).1
    = Status 500
  ∧ outcome_kind (run (patch Beer.fails (Beer.anyone "a") (Beer.info "Amber" 5))
                      Beer.cellar).1 = InternalError
  ∧ outcome_kind (run (putAll Beer.fails Beer.shelf (Beer.anyone "") Beer.replacement)
                      Beer.cellar).1 = InternalError
  ∧ (run (patch Beer.saves (Beer.anyone "a") (Beer.info "Amber" 5)) Beer.cellar).1
    = Status 204
  ∧ (run (putAll Beer.saves Beer.shelf (Beer.anyone "") Beer.replacement) Beer.cellar).1
    = Status 204.
Proof.
  assert (Hnodup : NoDup (object_keys Beer.replacement)) by by_computation.
  destruct (notifier_failure_propagation Beer.fails Beer.shelf (Beer.anyone "a")
              (Beer.info "Amber" 5) Beer.replacement Beer.cellar)
    as (Hpatch & _ & Halways).
  destruct (notifier_failure_propagation Beer.fails Beer.shelf (Beer.anyone "")
              (Beer.info "Amber" 5) Beer.replacement Beer.cellar)
    as (_ & Hput & Halways').
  destruct (Halways (λ _, eq_refl)) as [Hpatch500 _].
  destruct (Halways' (λ _, eq_refl)) as [_ Hput500].
  destruct (notifier_failure_propagation Beer.saves Beer.shelf (Beer.anyone "a")
              (Beer.info "Amber" 5) Beer.replacement Beer.cellar)
    as (Hpatch_ok & _ & _).
  destruct (notifier_failure_propagation Beer.saves Beer.shelf (Beer.anyone "")
              (Beer.info "Amber" 5) Beer.replacement Beer.cellar)
    as (_ & Hput_ok & _).
  split; [exact (Hpatch amber_patch_checks_pass)|].
  split; [exact (Hput eq_refl eq_refl Hnodup cellar_well_formed cellar_alias_free
                      replacement_all_pass)|].
  split; [exact (Hpatch500 amber_patch_checks_pass)|].
  split; [exact (Hput500 eq_refl eq_refl Hnodup cellar_well_formed cellar_alias_free
                         replacement_all_pass)|].
  split; [exact (Hpatch_ok amber_patch_checks_pass)|].
  exact (Hput_ok eq_refl eq_refl Hnodup cellar_well_formed cellar_alias_free
                 replacement_all_pass).
Defined.

(** C8: the array [Beer.listing] is not a mapping from identifier to
    payload, and collection PUT answers it 204: it has replaced the cellar
    by one beer under the identifier ["0"]. *)
Lemma putAll_accepts_an_array :
  ¬ putAll_rejects_non_mappings Beer.saves Beer.shelf (Beer.anyone "") Beer.listing Beer.cellar.
Proof.
  intros Hclaim. specialize (Hclaim eq_refl). vm_compute in Hclaim.
  discriminate Hclaim.
Qed.

Lemma putAll_shape_check_witness :
  run (putAll Beer.saves Beer.shelf (Beer.anyone "") JNull) Beer.cellar = (Status 400, Beer.cellar)
  ∧ run (putAll Beer.saves Beer.shelf (Beer.anyone "") JUndefined) Beer.cellar
    = (Status 400, Beer.cellar)
  ∧ run (putAll Beer.saves Beer.shelf (Beer.anyone "") (JStr "beer")) Beer.cellar
    = (Status 400, Beer.cellar)
  ∧ (∃ o w' evs,
       run (putAll Beer.saves Beer.shelf (Beer.anyone "") Beer.replacement) Beer.cellar = (o, w')
       ∧ calls Beer.cellar w' = CallGetMap :: evs)
  ∧ (∃ o w' evs,
       run (putAll Beer.saves Beer.shelf (Beer.anyone "") Beer.listing) Beer.cellar = (o, w')
       ∧ calls Beer.cellar w' = CallGetMap :: evs).
Proof.
  split; [|split; [|split; [|split]]].
  - by apply (putAll_shape_check Beer.saves Beer.shelf (Beer.anyone "") JNull Beer.cellar).
  - by apply (putAll_shape_check Beer.saves Beer.shelf (Beer.anyone "") JUndefined Beer.cellar).
  - by apply (putAll_shape_check Beer.saves Beer.shelf (Beer.anyone "") (JStr "beer") Beer.cellar).
  - apply (putAll_shape_check Beer.saves Beer.shelf (Beer.anyone "") Beer.replacement Beer.cellar).
    left. by eexists.
  - apply (putAll_shape_check Beer.saves Beer.shelf (Beer.anyone "") Beer.listing Beer.cellar).
    right. by eexists.
Defined.

Lemma custom_format_skips_rights_witness :
  (run (get (Beer.custom_context "a" false false)) Beer.cellar).1 = Handoff ()
  ∧ (run (patch Beer.saves (Beer.custom_context "a" false false) (Beer.info "Amber" 5))
         Beer.cellar).1 = Handoff ()
  ∧ (run (patch Beer.saves (Beer.custom_context "a" false false) (Beer.info "Amber" 5))
         Beer.cellar).2
    = mkWorld (heap Beer.cellar) (collection Beer.cellar)
              [CallGet "a"; CallCreateCustomFn "patch" 0].
Proof.
  destruct (custom_format_skips_rights Beer.saves (Beer.custom_context "a" false false)
              (Beer.info "Amber" 5) Beer.cellar 0 (Beer.mk "a" (JStr "Ale") (JNum 1))
              eq_refl eq_refl eq_refl) as [Hget Hpatch].
  rewrite (Hget () eq_refl), (Hpatch () eq_refl). by repeat split.
Defined.

Lemma patch_keeps_edit_on_notifier_failure_witness :
  ∃ w', run (patch Beer.fails (Beer.anyone "a") (Beer.info "Amber" 5)) Beer.cellar
        = (Status 500, w')
      ∧ resource_at w' "a" = Some (Beer.mk "a" (JStr "Amber") (JNum 5))
      ∧ calls Beer.cellar w'
        = [CallGet "a"; CallMay Update 0; CallEdit 0 (Beer.info "Amber" 5); CallSet "a" 0].
Proof.
  exact (patch_keeps_edit_on_notifier_failure Beer.fails (Beer.anyone "a")
           (Beer.info "Amber" 5) Beer.cellar 0 (Beer.mk "a" (JStr "Ale") (JNum 1))
           (Beer.mk "a" (JStr "Amber") (JNum 5))
           eq_refl eq_refl eq_refl eq_refl eq_refl eq_refl).
Defined.

(** ** Runs of collection PUT on the cellar *)

(** The replacement of the specification's example: [{a, b}] put with
    [{b, c}] is exactly [{b, c}]; [a] is gone. *)
Example replacement_run :
  run (putAll Beer.saves Beer.shelf (Beer.anyone "") Beer.replacement) Beer.cellar
  = (Status 204,
     mkWorld [Beer.mk "a" (JStr "Ale") (JNum 1);
              Beer.mk "b" (JStr "Bitter") (JNum 3);
              Beer.mk "c" (JStr "Cider") (JNum 4)]
             (<["c" := 2]> (<["b" := 1]> ∅))
             [CallGetMap;
              CallGet "b"; CallMay Update 1; CallEdit 1 (Beer.info "Bitter" 3);
              CallGet "c"; CallInstantiate "c" (Beer.info "Cider" 4); CallMay Create 2;
              CallMay Delete 0;
              CallSetAll (<["c" := 2]> (<["b" := 1]> ∅))]).
Proof. vm_compute. reflexivity. Qed.

(** The test of the specification: three creations that are allowed and
    one update that is not; the outcome is Forbidden and the collection is
    as it was. *)
Example three_creates_one_denied_update :
  let result := run (putAll Beer.saves Beer.shelf (Beer.context "" true true false true)
                            Beer.three_new_one_old) Beer.cellar in
  result.1 = Disallowed 1
  ∧ snapshot result.2 = snapshot Beer.cellar.
Proof. vm_compute. split; reflexivity. Qed.

(** An update followed by an instantiation that fails: the outcome is 400
    and beer [b] keeps the new name. *)
Example half_bad_run :
  let result := run (putAll Beer.saves Beer.shelf (Beer.anyone "") Beer.half_bad) Beer.cellar in
  result.1 = Status 400
  ∧ collection result.2 = collection Beer.cellar
  ∧ resource_at Beer.cellar "b" = Some (Beer.mk "b" (JStr "Bock") (JNum 2))
  ∧ resource_at result.2 "b" = Some (Beer.mk "b" (JStr "Bitter") (JNum 3)).
Proof. vm_compute. repeat split; reflexivity. Qed.

(** An array as payload: its one element becomes the beer ["0"], and the
    beers [a] and [b] are deleted. *)
Example listing_run :
  let result := run (putAll Beer.saves Beer.shelf (Beer.anyone "") Beer.listing) Beer.cellar in
  result.1 = Status 204
  ∧ snapshot result.2 = {[ "0" := Beer.mk "0" (JStr "Stout") (JNum 5) ]}.
Proof. vm_compute. split; reflexivity. Qed.

(** * Further properties of the handlers *)

(** Shows the calls of a run that has been computed. *)
Ltac see_calls :=
  unfold calls; cbn [trace heap collection fst snd];
  rewrite <- ?app_assoc; rewrite ?drop_app_length; cbn [app last].

Section Causes.
Context {R Fn : Type} `{!Resource R}.
Variable notifier : list string → Persisted.
Variable order : KeyOrder.
Implicit Types (ctx : Context R Fn) (w : World R) (obj data : Value).

Lemma get_accounted_for ctx w :
  accounted_for ctx w (run (get ctx) w).2 (run (get ctx) w).1.
Proof.
  unfold accounted_for, get. unfold_M.
  destruct (collection w !! baseName ctx) as [r|] eqn:Hr; cbn.
  - destruct (isJson ctx); cbn.
    + destruct (from_option (rights ctx Read) false (heap w !! r)) eqn:Hok; cbn;
        see_calls; eauto.
    + destruct (heap w !! r ≫= createCustomFn ctx "get"); cbn; see_calls; eauto.
  - see_calls. eauto.
Qed.

Lemma patch_accounted_for ctx obj w :
  accounted_for ctx w (run (patch notifier ctx obj) w).2
                (run (patch notifier ctx obj) w).1.
Proof.
  unfold accounted_for, patch. unfold_M.
  destruct (collection w !! baseName ctx) as [r|] eqn:Hr; cbn.
  - destruct (isJson ctx); cbn.
    + destruct (from_option (rights ctx Update) false (heap w !! r)) eqn:Hok; cbn.
      * destruct (heap w !! r) as [s|] eqn:Hs; cbn.
        -- destruct (edit s obj); cbn.
           ++ destruct (notifier [baseName ctx]); cbn; see_calls; eauto.
           ++ see_calls. eauto.
        -- see_calls. eauto.
      * see_calls. eauto.
    + destruct (heap w !! r ≫= createCustomFn ctx "patch"); cbn; see_calls; eauto.
  - see_calls. eauto.
Qed.

(** One turn of the first loop of [putAll], by its calls. *)
Lemma putAll_item_calls ctx data id resources toDelete w :
  let result := putAll_item ctx data id resources toDelete w in
  ∃ evs,
    trace result.2 = trace w ++ CallGet id :: evs
    ∧ Forall (λ e, is_item_call e = true) evs
    ∧ lookups evs = []
    ∧ match result.1 with
      | inr _ => True
      | inl o =>
          (∃ r op, o = Disallowed r
                 ∧ last (CallGet id :: evs) = Some (CallMay op r)
                 ∧ from_option (rights ctx op) false (heap result.2 !! r) = false)
          ∨ o = Status 400
            ∧ ((∃ r info, last (CallGet id :: evs) = Some (CallEdit r info))
               ∨ ∃ id' info, last (CallGet id :: evs) = Some (CallInstantiate id' info)
                           ∧ construct id' info = None)
      end.
Proof.
  unfold putAll_item. unfold_M.
  destruct (collection w !! id) as [r|] eqn:Hr; cbn.
  - destruct (from_option (rights ctx Update) false (heap w !! r)) eqn:Hok; cbn.
    + destruct (heap w !! r) as [s|] eqn:Hs; cbn.
      * destruct (edit s (get_prop data id)); cbn; rewrite <- !app_assoc; cbn;
          eexists; (split; [reflexivity|]); (split; [by repeat constructor|]);
          (split; [done|]); [done|]. right. eauto.
      * rewrite <- !app_assoc. cbn.
        eexists; (split; [reflexivity|]); (split; [by repeat constructor|]);
          (split; [done|]). right. eauto.
    + rewrite <- !app_assoc. cbn.
      eexists; (split; [reflexivity|]); (split; [by repeat constructor|]);
        (split; [done|]). left. by exists r, Update.
  - destruct (construct id (get_prop data id)) as [s|] eqn:Hnew; cbn.
    + rewrite list_lookup_middle by done. cbn.
      destruct (rights ctx Create s) eqn:Hok; cbn; rewrite <- !app_assoc; cbn;
        eexists; (split; [reflexivity|]); (split; [by repeat constructor|]);
        (split; [done|]); [done|].
      left. exists (length (heap w)), Create. split; [done|]. split; [done|].
      by rewrite list_lookup_middle.
    + rewrite <- !app_assoc. cbn.
      eexists; (split; [reflexivity|]); (split; [by repeat constructor|]);
        (split; [done|]). right. split; [done|]. right. eauto.
Qed.

(** The first loop of [putAll], by its calls: it looks the identifiers up
    in order, all of them unless it stops on a failure, which its last call
    accounts for. *)
Lemma putAll_items_calls ctx data ids : ∀ resources toDelete w,
  let result := putAll_items ctx data ids resources toDelete w in
  ∃ evs,
    trace result.2 = trace w ++ evs
    ∧ Forall (λ e, is_item_call e = true) evs
    ∧ lookups evs `prefix_of` ids
    ∧ match result.1 with
      | inr _ => lookups evs = ids
      | inl o =>
          (∃ r op, o = Disallowed r
                 ∧ last evs = Some (CallMay op r)
                 ∧ from_option (rights ctx op) false (heap result.2 !! r) = false)
          ∨ o = Status 400
            ∧ ((∃ r info, last evs = Some (CallEdit r info))
               ∨ ∃ id' info, last evs = Some (CallInstantiate id' info)
                           ∧ construct id' info = None)
      end.
Proof.
  induction ids as [|id ids IH]; intros resources toDelete w; cbn zeta.
  - exists []. cbn. by rewrite app_nil_r.
  - destruct (putAll_item_calls ctx data id resources toDelete w)
      as (evs1 & Htr1 & Hev1 & Hget1 & Hout1).
    cbn [putAll_items]. unfold mbind, M_bind.
    destruct (putAll_item ctx data id resources toDelete w)
      as [[o|[resources1 toDelete1]] w1]; cbn in Htr1, Hout1 |- *.
    + exists (CallGet id :: evs1). split; [done|].
      split; [by constructor|]. split; [|done].
      unfold lookups in *. cbn. rewrite Hget1. apply prefix_cons, prefix_nil.
    + destruct (IH resources1 toDelete1 w1) as (evs & Htr & Hev & Hget & Hout).
      cbn zeta in Htr, Hout.
      exists ((CallGet id :: evs1) ++ evs).
      split; [by rewrite Htr, Htr1, <- app_assoc|].
      split; [apply Forall_app; split; [by constructor|done]|].
      assert (Hlook : lookups ((CallGet id :: evs1) ++ evs) = id :: lookups evs).
      { unfold lookups in *. rewrite omap_app. cbn. by rewrite Hget1. }
      rewrite Hlook. split; [by apply prefix_cons|].
      destruct (putAll_items ctx data ids resources1 toDelete1 w1).1 as [o|?].
      * rewrite last_app.
        destruct Hout as [(r & op & -> & -> & Hdenied)|(-> & [(r & info & ->)|(id' & info & -> & Hnone)])];
          [left|right; split; [done|left]|right; split; [done|right]]; eauto.
      * by rewrite Hout.
Qed.

(** The second loop of [putAll], by its calls: one delete check for each
    candidate in turn, up to the first that is denied. *)
Lemma putAll_deletions_calls ctx (candidates : list (string * nat)) : ∀ w,
  let result := putAll_deletions ctx candidates w in
  heap result.2 = heap w
  ∧ collection result.2 = collection w
  ∧ match result.1 with
    | inr _ =>
        trace result.2 = trace w ++ (CallMay Delete <$> candidates.*2)
        ∧ Forall (λ r, may_delete ctx w r = true) candidates.*2
    | inl o =>
        ∃ checked r rest,
          candidates.*2 = checked ++ r :: rest
          ∧ o = Disallowed r
          ∧ trace result.2 = trace w ++ (CallMay Delete <$> checked ++ [r])
          ∧ Forall (λ r, may_delete ctx w r = true) checked
          ∧ may_delete ctx w r = false
    end.
Proof.
  induction candidates as [|[id r] candidates IH]; intros w; cbn zeta.
  - cbn. by rewrite app_nil_r.
  - cbn [putAll_deletions]. unfold_M.
    destruct (from_option (rights ctx Delete) false (heap w !! r)) eqn:Hok; cbn.
    + destruct (IH (log (CallMay Delete r) w)) as (Hheap & Hcoll & Hout).
      cbn zeta in Hheap, Hcoll, Hout. unfold log in *.
      destruct (putAll_deletions ctx candidates _) as [[o|[]] w']; cbn in *.
      * split; [done|]. split; [done|].
        destruct Hout as (checked & r' & rest & Hsplit & -> & Htr & Hall & Hdenied).
        exists (r :: checked), r', rest. rewrite Hsplit. split; [done|]. split; [done|].
        split; [by rewrite Htr, <- app_assoc|]. split; [by constructor|done].
      * split; [done|]. split; [done|]. destruct Hout as [Htr Hall].
        split; [by rewrite Htr, <- app_assoc|by constructor].
    + split; [done|]. split; [done|]. by exists [], r, candidates.*2.
Qed.

(** X1. The calls of collection PUT, in its three phases.  A payload
    that fails the shape check: none, and the outcome is 400.  A payload
    that passes it: [collection.getMap], then the first loop, which looks
    the identifiers of the payload up in order and makes no delete check;
    if it stops on a failure that is all.  Then one delete check for each
    deletion candidate, in the order of the keys of the collection, up to
    the first that is denied, which is the resource handed to [disallow].
    Only when every candidate has been checked and none denied, one call
    of [setAll], last, on a mapping whose keys are the identifiers of the
    payload other than ["__proto__"]. *)
Theorem putAll_phases ctx data w :
  let result := run (putAll notifier order ctx data) w in
  let candidates := (candidates_in_order order data w).*2 in
  ((truthy data = false ∨ typeof data ≠ "object")
   ∧ calls w result.2 = [] ∧ result.1 = Status 400)
  ∨ (truthy data = true ∧ typeof data = "object")
    ∧ ∃ items,
        Forall (λ e, is_item_call e = true) items
        ∧ lookups items `prefix_of` object_keys data
        ∧ ((calls w result.2 = CallGetMap :: items
            ∧ (result.1 = Status 400 ∨ ∃ r, result.1 = Disallowed r))
           ∨ lookups items = object_keys data
             ∧ ((∃ checked r rest,
                   candidates = checked ++ r :: rest
                   ∧ calls w result.2
                     = CallGetMap :: items ++ (CallMay Delete <$> checked ++ [r])
                   ∧ result.1 = Disallowed r
                   ∧ Forall (λ r, may_delete ctx result.2 r = true) checked
                   ∧ may_delete ctx result.2 r = false)
                ∨ ∃ resources,
                    calls w result.2
                    = CallGetMap :: items ++ (CallMay Delete <$> candidates)
                                 ++ [CallSetAll resources]
                    ∧ dom resources = list_to_set (assigned_keys data)
                    ∧ Forall (λ r, may_delete ctx result.2 r = true) candidates
                    ∧ (result.1 = Status 204 ∨ result.1 = Status 500))).
Proof.
  cbn zeta.
  destruct (putAll_cases notifier order ctx data w) as (o & w' & Hrun & Hcase).
  rewrite Hrun. cbn [fst snd].
  destruct Hcase as [(Hshape & -> & ->)|(Htruthy & Htype & out1 & w1 & Hitems & Hout1)].
  { left. split; [done|]. split; [|done]. unfold calls. by rewrite drop_all. }
  right. split; [done|].
  destruct (putAll_items_calls ctx data (object_keys data) ∅
              (entries_of order (collection w))
              (log CallGetMap w)) as (items & Htr1 & Hev1 & Hpre & Hlook).
  destruct (putAll_items_run ctx data (object_keys data) ∅
              (entries_of order (collection w)) (log CallGetMap w))
    as (out1' & w1' & _ & Hitems' & _ & _ & _ & _ & _ & Hres1).
  rewrite Hitems in Hitems'. injection Hitems' as <- <-.
  cbn zeta in Htr1, Hlook. rewrite Hitems in Htr1, Hlook.
  cbn in Htr1, Hlook. rewrite <- app_assoc in Htr1. cbn in Htr1.
  exists items. split; [done|]. split; [done|].
  destruct out1 as [o1|[resources toDelete]].
  { destruct Hout1 as [-> ->]. left. split; [by apply calls_app|].
    destruct Hlook as [(r & op & -> & _)|[-> _]]; eauto. }
  right. split; [done|].
  destruct Hres1 as (Hin & Hout & Hdel1).
  cbn [collection log] in Hdel1. rewrite toDelete_candidates in Hdel1. subst toDelete.
  destruct Hout1 as (out2 & w2 & Hdel & Hout2).
  destruct (putAll_deletions_calls ctx (candidates_in_order order data w) w1)
    as (Hheap2 & _ & Hcalls2).
  cbn zeta in Hheap2, Hcalls2. rewrite Hdel in Hheap2, Hcalls2.
  cbn in Hheap2, Hcalls2.
  assert (Hjudge : ∀ r, may_delete ctx w2 r = may_delete ctx w1 r).
  { intros r. unfold may_delete. by rewrite Hheap2. }
  destruct out2 as [o2|[]].
  - destruct Hout2 as [-> ->]. left.
    destruct Hcalls2 as (checked & r & rest & Hsplit & -> & Htr2 & Hall & Hdenied).
    exists checked, r, rest. split; [done|]. split.
    { apply calls_app. by rewrite Htr2, Htr1, <- app_assoc. }
    split; [done|]. split; [|by rewrite Hjudge].
    eapply Forall_impl; [exact Hall|]. intros r' Hr'. by rewrite Hjudge.
  - destruct Hout2 as [-> ->]. right. destruct Hcalls2 as [Htr2 Hall].
    exists resources. split.
    { apply calls_app. cbn. by rewrite Htr2, Htr1, <- !app_assoc. }
    split; [by apply dom_of_keys|].
    split; [|by destruct (notifier _); eauto].
    eapply Forall_impl; [exact Hall|]. intros r' Hr'.
    unfold may_delete in *. cbn [heap]. by rewrite Hheap2.
Qed.

Lemma putAll_accounted_for ctx data w :
  accounted_for ctx w (run (putAll notifier order ctx data) w).2
                (run (putAll notifier order ctx data) w).1.
Proof.
  destruct (putAll_cases notifier order ctx data w) as (o & w' & Hrun & Hcase).
  rewrite Hrun. cbn [fst snd].
  destruct Hcase as [(_ & -> & ->)|(_ & _ & out1 & w1 & Hitems & Hout1)].
  { left. unfold calls. by rewrite drop_all. }
  destruct (putAll_items_calls ctx data (object_keys data) ∅
              (entries_of order (collection w))
              (log CallGetMap w)) as (items & Htr1 & _ & _ & Hlook).
  cbn zeta in Htr1, Hlook. rewrite Hitems in Htr1, Hlook.
  cbn in Htr1, Hlook. rewrite <- app_assoc in Htr1. cbn in Htr1.
  destruct out1 as [o1|[resources toDelete]].
  { destruct Hout1 as [-> ->]. unfold accounted_for.
    rewrite (calls_app w w1 _ Htr1).
    destruct Hlook as [(r & op & -> & Hlast & Hdenied)|(-> & [(r & info & Hlast)|(id & info & Hlast & Hnone)])];
      rewrite last_cons, Hlast; eauto 8. }
  destruct Hout1 as (out2 & w2 & Hdel & Hout2).
  destruct (putAll_deletions_calls ctx toDelete w1)
    as (Hheap2 & _ & Hcalls2).
  cbn zeta in Hheap2, Hcalls2. rewrite Hdel in Hheap2, Hcalls2. cbn in Hheap2, Hcalls2.
  destruct out2 as [o2|[]].
  - destruct Hout2 as [-> ->].
    destruct Hcalls2 as (checked & r & rest & _ & -> & Htr2 & _ & Hdenied).
    unfold accounted_for. exists Delete. split.
    + rewrite Htr1, <- app_assoc in Htr2. rewrite (calls_app w w2 _ Htr2).
      apply last_Some. exists ((CallGetMap :: items) ++ (CallMay Delete <$> checked)).
      by rewrite fmap_app, <- !app_assoc.
    + by rewrite Hheap2.
  - destruct Hout2 as [-> ->]. destruct Hcalls2 as [Htr2 _].
    assert (Hlast : last (calls w (mkWorld (heap w2) resources
                                    (trace w2 ++ [CallSetAll resources])))
                    = Some (CallSetAll resources)).
    { unfold calls. cbn. rewrite Htr2, Htr1, <- !app_assoc, drop_app_length.
      apply last_Some.
      exists ((CallGetMap :: items) ++ (CallMay Delete <$> toDelete.*2)).
      by rewrite <- !app_assoc. }
    unfold accounted_for. rewrite Hlast.
    destruct (notifier _); by eexists.
Qed.

(** X2. Every outcome of item GET, item PATCH and collection PUT is
    accounted for by the last call the handler made: [disallow] comes right
    after a rights check on that very resource that denied it; 400 after a
    failed shape check (no call), an [edit] or an instantiation that the
    class refuses; 404 after the lookup of an identifier that is not in the
    collection; 415 and the hand-off after [createCustomFn]; 500 and 204
    after a commit; 200 after a read check that allowed the resource sent.
    No handler ends in any other way. *)
Theorem outcomes_accounted_for ctx obj data w :
  accounted_for ctx w (run (get ctx) w).2 (run (get ctx) w).1
  ∧ accounted_for ctx w (run (patch notifier ctx obj) w).2
                  (run (patch notifier ctx obj) w).1
  ∧ accounted_for ctx w (run (putAll notifier order ctx data) w).2
                  (run (putAll notifier order ctx data) w).1.
Proof.
  split; [apply get_accounted_for|].
  split; [apply patch_accounted_for|apply putAll_accounted_for].
Qed.

End Causes.

Section Protection.
Context {R Fn : Type} `{!Resource R}.
Variable notifier : list string → Persisted.
Variable order : KeyOrder.
Implicit Types (ctx : Context R Fn) (w : World R) (obj data : Value).

(** X3. Collection PUT of an empty payload ([{}] or [[]]) is a deletion of
    everything: it looks nothing up, and makes one delete check for each
    stored resource, in the order of the keys of the collection.  If all
    allow it, [setAll] is called with the empty mapping and the outcome is
    what the notifier reports; after a 204 the collection is empty.  If
    one does not, that resource is handed to [disallow] and the collection
    and the heap are as before. *)
Theorem putAll_empty_payload ctx data w :
  data = JObj [] ∨ data = JArr [] →
  let result := run (putAll notifier order ctx data) w in
  let stored := (entries_of order (collection w)).*2 in
  (Forall (λ r, may_delete ctx w r = true) stored →
     result.1 = reported (notifier (affected_ids (collection w) ∅))
     ∧ heap result.2 = heap w
     ∧ calls w result.2
       = CallGetMap :: (CallMay Delete <$> stored) ++ [CallSetAll ∅]
     ∧ (result.1 = Status 204 → collection result.2 = ∅))
  ∧ (¬ Forall (λ r, may_delete ctx w r = true) stored →
     ∃ checked r rest,
       stored = checked ++ r :: rest
       ∧ result.1 = Disallowed r
       ∧ Forall (λ r, may_delete ctx w r = true) checked
       ∧ may_delete ctx w r = false
       ∧ collection result.2 = collection w
       ∧ heap result.2 = heap w
       ∧ calls w result.2 = CallGetMap :: (CallMay Delete <$> checked ++ [r])).
Proof.
  intros Hempty. cbn zeta.
  assert (Hrun : run (putAll notifier order ctx data) w
    = run (_ ← putAll_deletions ctx (entries_of order (collection w));
           error ← coll_setAll notifier ∅;
           match error with
           | PersistError => finish (Status 500)
           | PersistOk => finish (Status 204)
           end) (log CallGetMap w)).
  { by destruct Hempty as [-> | ->]. }
  rewrite Hrun. clear Hrun.
  destruct (putAll_deletions_calls ctx (entries_of order (collection w))
              (log CallGetMap w))
    as (Hheap & Hcoll & Hout).
  cbn zeta in Hheap, Hcoll, Hout. unfold run, mbind, M_bind.
  destruct (putAll_deletions ctx (entries_of order (collection w)) (log CallGetMap w))
    as [[o|[]] w2]; cbn in Hheap, Hcoll, Hout |- *.
  - destruct Hout as (checked & r & rest & Hsplit & -> & Htr & Hall & Hdenied).
    split.
    + intros Hallowed. rewrite Hsplit in Hallowed.
      apply Forall_app in Hallowed as [_ Hallowed].
      apply Forall_cons in Hallowed as [Hr _].
      change (may_delete ctx w r = false) in Hdenied. congruence.
    + intros _. exists checked, r, rest.
      do 6 (split; [done|]). apply calls_app. by rewrite Htr, <- app_assoc.
  - destruct Hout as [Htr Hall]. split; [|by intros []].
    intros _. unfold coll_setAll, finish. rewrite Hcoll.
    split; [by destruct (notifier _)|].
    destruct (notifier (affected_ids (collection w) ∅)); cbn;
      (split; [done|]); (split; [|done]); apply calls_app; cbn;
      by rewrite Htr, <- !app_assoc.
Qed.

(** Where the instances that the first loop gathers come from. *)
Lemma putAll_items_origin ctx data w0 ids : ∀ resources toDelete w resources' toDelete' w',
  collection w = collection w0 → length (heap w0) ≤ length (heap w) →
  (∀ id r, resources !! id = Some r →
     collection w0 !! id = Some r
     ∨ collection w0 !! id = None ∧ length (heap w0) ≤ r < length (heap w)) →
  putAll_items ctx data ids resources toDelete w = (inr (resources', toDelete'), w') →
  length (heap w0) ≤ length (heap w')
  ∧ ∀ id r, resources' !! id = Some r →
      collection w0 !! id = Some r
      ∨ collection w0 !! id = None ∧ length (heap w0) ≤ r < length (heap w').
Proof.
  induction ids as [|id ids IH];
    intros resources toDelete w resources' toDelete' w' Hcoll Hlen Hfrom Hrun.
  - cbn in Hrun. by injection Hrun as <- <- <-.
  - destruct (putAll_item_run ctx data id resources toDelete w)
      as (out1 & w1 & _ & Hrun1 & Hcoll1 & _ & _ & Hlen1 & _ & Hout1).
    cbn [putAll_items] in Hrun. unfold mbind, M_bind in Hrun. rewrite Hrun1 in Hrun.
    destruct out1 as [o|[resources1 toDelete1]]; [done|].
    destruct Hout1 as (_ & r1 & -> & _ & Hsome1 & Hwhich).
    apply lookup_lt_is_Some in Hsome1. rewrite Hcoll in Hwhich.
    apply (IH (assign id r1 resources) toDelete1 w1 resources' toDelete' w');
      [congruence|lia| |done].
    assert (Hgrown : ∀ id' r, resources !! id' = Some r →
              collection w0 !! id' = Some r
              ∨ collection w0 !! id' = None ∧ length (heap w0) ≤ r < length (heap w1)).
    { intros id' r Hr.
      destruct (Hfrom id' r Hr) as [|[? ?]]; [by left|right]. split; [done|lia]. }
    unfold assign. destruct (decide (id = "__proto__")) as [_|_]; [done|].
    intros id' r. destruct (decide (id' = id)) as [->|Hne].
    + rewrite lookup_insert_eq. intros [= <-].
      destruct (collection w0 !! id) as [r0|]; destruct Hwhich as [-> _];
        [by left|right]. split; [done|lia].
    + rewrite lookup_insert_ne by done. apply Hgrown.
Qed.

(** X4. When collection PUT commits (204 or 500), its last call is
    [setAll], and after a 204 the mapping handed to it is the collection.
    The heap has lost no instance, and every resource of that mapping is
    either the very instance that was under that identifier before the
    call (it has been edited in place, not replaced) or an instance created
    during the call.  So an identifier of the payload, other than
    ["__proto__"], that was in the collection keeps its instance. *)
Theorem putAll_keeps_instances ctx data w o w' :
  run (putAll notifier order ctx data) w = (o, w') →
  o = Status 204 ∨ o = Status 500 →
  ∃ resources,
    last (calls w w') = Some (CallSetAll resources)
    ∧ (o = Status 204 → collection w' = resources)
    ∧ length (heap w) ≤ length (heap w')
    ∧ (∀ id r, resources !! id = Some r →
         collection w !! id = Some r
         ∨ collection w !! id = None ∧ length (heap w) ≤ r < length (heap w'))
    ∧ (∀ id r, id ∈ assigned_keys data → collection w !! id = Some r →
         resources !! id = Some r).
Proof.
  intros Hrun Ho.
  destruct (putAll_cases notifier order ctx data w) as (o' & w'' & Hrun' & Hcase).
  rewrite Hrun in Hrun'. injection Hrun' as <- <-.
  destruct Hcase as [(_ & -> & _)|(_ & _ & out1 & w1 & Hitems & Hout1)];
    [by destruct Ho|].
  destruct (putAll_items_run ctx data (object_keys data) ∅
              (entries_of order (collection w)) (log CallGetMap w))
    as (out1' & w1' & evs1 & Hitems' & _ & Htr1 & _ & _ & _ & Hres1).
  rewrite Hitems in Hitems'. injection Hitems' as <- <-.
  destruct out1 as [o1|[resources toDelete]].
  { destruct Hout1 as [-> _]. by destruct Hres1 as [->|[r ->]], Ho. }
  destruct Hout1 as (out2 & w2 & Hdel & Hout2).
  destruct (putAll_deletions_run ctx toDelete w1)
    as (out2' & w2' & evs2 & Hdel' & Hheap2 & _ & Htr2 & _ & Hres2).
  rewrite Hdel in Hdel'. injection Hdel' as <- <-.
  destruct out2 as [o2|[]].
  { destruct Hout2 as [-> _]. by destruct Hres2 as [[r ->] _], Ho. }
  destruct Hout2 as [_ ->]. cbn.
  destruct (putAll_items_origin ctx data w (object_keys data) ∅
              (entries_of order (collection w))
              (log CallGetMap w) resources toDelete w1 eq_refl (Nat.le_refl _))
    as [Hlen Hfrom]; [by intros *; rewrite lookup_empty|done|].
  exists resources. rewrite Hheap2. split.
  { unfold calls. cbn [trace]. rewrite Htr2, Htr1. cbn [trace log].
    rewrite <- !app_assoc, drop_app_length. apply last_Some.
    exists ([CallGetMap] ++ evs1 ++ evs2). by rewrite <- !app_assoc. }
  split; [done|]. split; [done|]. split; [done|].
  intros id r [Hproto Hid]%list_elem_of_filter Hr. destruct Hres1 as (Hin & _ & _).
  destruct (Hin id Hid Hproto) as [r' Hr']. rewrite Hr'.
  destruct (Hfrom id r' Hr') as [Hsame|[Hnone _]]; congruence.
Qed.

(** X5. The invariants of the collection are kept by the three handlers,
    whatever their outcome: after item GET, item PATCH or collection PUT on
    a collection whose identifiers designate instances of the heap, no two
    of them the same one, this is still so. *)
Theorem handlers_keep_invariants ctx obj data w :
  well_formed w → alias_free w →
  (well_formed (run (get ctx) w).2 ∧ alias_free (run (get ctx) w).2)
  ∧ (well_formed (run (patch notifier ctx obj) w).2
     ∧ alias_free (run (patch notifier ctx obj) w).2)
  ∧ (well_formed (run (putAll notifier order ctx data) w).2
     ∧ alias_free (run (putAll notifier order ctx data) w).2).
Proof.
  intros Hwf Hfree.
  destruct (item_handlers_keep_collection notifier ctx obj w)
    as [[Hcoll_patch Hlen_patch] [Hcoll_get Hheap_get]].
  split; [|split].
  - split; [apply (well_formed_frame w)|apply (alias_free_frame w)];
      rewrite ?Hheap_get; done.
  - split; [apply (well_formed_frame w)|apply (alias_free_frame w)];
      rewrite ?Hlen_patch; done.
  - destruct (run (putAll notifier order ctx data) w) as [o w'] eqn:Hrun.
    by apply (putAll_keeps_invariants notifier order ctx data w o w').
Qed.

(** X6. Item PATCH asked for a representation other than the default,
    with no formatter registered for the resource, ends with 415 before any
    rights check: whatever the rights and the payload are, nothing is
    edited and nothing is committed. *)
Theorem patch_unsupported_format ctx obj w r s :
  isJson ctx = false →
  collection w !! baseName ctx = Some r →
  heap w !! r = Some s →
  createCustomFn ctx "patch" s = None →
  run (patch notifier ctx obj) w
  = (Status 415,
     mkWorld (heap w) (collection w)
             (trace w ++ [CallGet (baseName ctx); CallCreateCustomFn "patch" r])).
Proof. intros Hjson Hr Hs Hfn. unfold patch. by run_handler. Qed.

(** X7. Item PATCH touches one instance at most: whatever its outcome,
    the collection maps the same identifiers to the same instances as
    before (it creates and deletes nothing), the heap has the same
    instances, and every instance but the one under the identifier of the
    request is in the state it was in. *)
Theorem patch_touches_one_instance ctx obj w :
  let after := (run (patch notifier ctx obj) w).2 in
  collection after = collection w
  ∧ length (heap after) = length (heap w)
  ∧ ∀ r, collection w !! baseName ctx ≠ Some r → heap after !! r = heap w !! r.
Proof.
  cbn zeta.
  destruct (item_handlers_keep_collection notifier ctx obj w) as [[Hcoll Hlen] _].
  split; [done|]. split; [done|]. clear Hcoll Hlen.
  intros r Hother. unfold patch. unfold_M.
  destruct (collection w !! baseName ctx) as [r0|] eqn:Hr0; [|done].
  destruct (isJson ctx); cbn.
  - destruct (from_option (rights ctx Update) false (heap w !! r0)); cbn; [|done].
    destruct (heap w !! r0) as [s|]; cbn; [|done].
    destruct (edit s obj); cbn; [destruct (notifier [baseName ctx]); cbn|];
      apply list_lookup_insert_ne; congruence.
  - by destruct (heap w !! r0 ≫= createCustomFn ctx "patch").
Qed.

(** X8. What item PATCH has written, item GET reads: after a PATCH that
    passed its checks, whether the notifier then succeeded or failed, a GET
    of the same identifier in the default representation, by a caller who
    may read the edited resource, answers 200 with the same instance, and
    that instance is in the state the edit returned. *)
Theorem patch_then_get ctx ctx' obj w r s s' :
  isJson ctx = true →
  collection w !! baseName ctx = Some r →
  heap w !! r = Some s →
  rights ctx Update s = true →
  edit s obj = Returned s' →
  isJson ctx' = true →
  baseName ctx' = baseName ctx →
  rights ctx' Read s' = true →
  let patched := (run (patch notifier ctx obj) w).2 in
  (run (get ctx') patched).1 = StatusBody 200 r
  ∧ heap (run (get ctx') patched).2 !! r = Some s'.
Proof.
  intros Hjson Hr Hs Hok Hret Hjson' Hsame Hread. cbn zeta.
  rewrite (patch_commits notifier ctx obj w r s s') by done. cbn [snd].
  assert (Hlt : r < length (heap w)) by (by eapply lookup_lt_Some).
  unfold get. unfold_M. rewrite Hsame, lookup_insert_eq, Hjson'. cbn.
  rewrite list_lookup_insert_eq by done. cbn. rewrite Hread. cbn.
  split; [done|]. by apply list_lookup_insert_eq.
Qed.

(** X9. After a collection PUT that ended with 204, an item GET or an
    item PATCH of an identifier that the payload did not have ends with
    404, also if the identifier was in the collection before, and so does
    one of ["__proto__"]; neither ends with 404 for any other identifier
    of the payload. *)
Theorem putAll_then_item (notifier' : list string → Persisted) ctx ctx' data obj w w' :
  run (putAll notifier order ctx data) w = (Status 204, w') →
  (baseName ctx' ∉ object_keys data ∨ baseName ctx' = "__proto__" →
     (run (get ctx') w').1 = Status 404
     ∧ (run (patch notifier' ctx' obj) w').1 = Status 404)
  ∧ (baseName ctx' ∈ object_keys data → baseName ctx' ≠ "__proto__" →
     (run (get ctx') w').1 ≠ Status 404
     ∧ (run (patch notifier' ctx' obj) w').1 ≠ Status 404).
Proof.
  intros Hrun.
  destruct (putAll_cases notifier order ctx data w) as (o' & w'' & Hrun' & Hcase).
  rewrite Hrun in Hrun'. injection Hrun' as <- <-.
  destruct Hcase as [(_ & [=] & _)|(Htruthy & Htype & _)].
  destruct (putAll_outline notifier order ctx data w Htruthy Htype)
    as (o' & w'' & evs & Hrun' & _ & _ & Hcase).
  rewrite Hrun in Hrun'. injection Hrun' as <- <-.
  destruct Hcase as [([[=]|[r [=]]] & _)|(_ & resources & _ & _ & Hcoll & Hdom & _)].
  assert (Hlookup : baseName ctx' ≠ "__proto__" ∧ baseName ctx' ∈ object_keys data
                    ↔ is_Some (collection w' !! baseName ctx')).
  { rewrite Hcoll, <- elem_of_dom, Hdom, elem_of_list_to_set.
    unfold assigned_keys. by rewrite list_elem_of_filter. }
  split.
  - intros Hid.
    assert (Hnone : collection w' !! baseName ctx' = None).
    { apply eq_None_not_Some. rewrite <- Hlookup. tauto. }
    unfold get, patch. unfold_M. by rewrite Hnone.
  - intros Hid Hproto.
    destruct (proj1 Hlookup (conj Hproto Hid)) as [r Hr].
    unfold get, patch. unfold_M. rewrite Hr. cbn.
    split.
    + destruct (isJson ctx'); cbn.
      * by destruct (from_option (rights ctx' Read) false (heap w' !! r)).
      * by destruct (heap w' !! r ≫= createCustomFn ctx' "get").
    + destruct (isJson ctx'); cbn.
      * destruct (from_option (rights ctx' Update) false (heap w' !! r)); cbn; [|done].
        destruct (heap w' !! r) as [s|]; cbn; [|done].
        destruct (edit s obj); cbn; [|done].
        by destruct (notifier' [baseName ctx']).
      * by destruct (heap w' !! r ≫= createCustomFn ctx' "patch").
Qed.

(** The first loop of [putAll] and a resource that may not be updated: it
    is not edited, and the loop stops if the payload names it. *)
Lemma putAll_items_denied ctx data id r s ids : ∀ resources toDelete w,
  NoDup ids → well_formed w → alias_free w →
  collection w !! id = Some r → heap w !! r = Some s →
  rights ctx Update s = false →
  let result := putAll_items ctx data ids resources toDelete w in
  heap result.2 !! r = Some s
  ∧ (id ∈ ids → ∃ o, result.1 = inl o).
Proof.
  induction ids as [|id0 ids IH];
    intros resources toDelete w Hnodup Hwf Hfree Hr Hs Hdeny; cbn zeta.
  - split; [done|]. by intros ?%elem_of_nil.
  - apply NoDup_cons in Hnodup as [Hfresh Hnodup].
    cbn [putAll_items]. unfold mbind, M_bind.
    destruct (decide (id0 = id)) as [->|Hne].
    + (* the turn of the resource itself: the update check says no *)
      unfold putAll_item. unfold_M. rewrite Hr. cbn. rewrite Hs. cbn.
      rewrite Hdeny. cbn. eauto.
    + destruct (putAll_item_run ctx data id0 resources toDelete w)
        as (out1 & w1 & _ & Hrun1 & Hcoll1 & _ & _ & Hlen1 & Hframe1 & _).
      rewrite Hrun1.
      assert (Hs1 : heap w1 !! r = Some s).
      { rewrite Hframe1; [done| |by eapply lookup_lt_Some].
        intros Hr0. destruct Hne. by apply (alias_free_inj w id0 id r). }
      destruct out1 as [o|[resources1 toDelete1]]; [by eauto|].
      destruct (IH resources1 toDelete1 w1) as [Hkept Hstops]; try done.
      * by apply (well_formed_frame w).
      * by apply (alias_free_frame w).
      * congruence.
      * split; [done|]. intros [?|Hin]%elem_of_cons; [congruence|by apply Hstops].
Qed.

(** X10. Collection PUT and a stored resource that the caller may not
    update: whatever the payload and the outcome, the resource is not
    edited; if the payload names it, nothing is committed; and if the
    caller may not delete it either, it is in the collection afterwards,
    under its identifier, as it was. *)
Theorem putAll_protects_denied ctx data w id r s :
  NoDup (object_keys data) → well_formed w → alias_free w →
  collection w !! id = Some r → heap w !! r = Some s →
  rights ctx Update s = false →
  let after := (run (putAll notifier order ctx data) w).2 in
  heap after !! r = Some s
  ∧ (id ∈ object_keys data → collection after = collection w)
  ∧ (rights ctx Delete s = false → collection after !! id = Some r).
Proof.
  intros Hnodup Hwf Hfree Hr Hs Hdeny. cbn zeta.
  destruct (putAll_cases notifier order ctx data w) as (o & w' & Hrun & Hcase).
  rewrite Hrun. cbn [snd].
  destruct Hcase as [(_ & _ & ->)|(_ & _ & out1 & w1 & Hitems & Hout1)]; [done|].
  destruct (putAll_items_denied ctx data id r s (object_keys data) ∅
              (entries_of order (collection w))
              (log CallGetMap w) Hnodup Hwf Hfree Hr Hs Hdeny) as [Hkept Hstops].
  cbn zeta in Hkept, Hstops. rewrite Hitems in Hkept, Hstops. cbn in Hkept, Hstops.
  destruct (putAll_items_run ctx data (object_keys data) ∅
              (entries_of order (collection w)) (log CallGetMap w))
    as (out1' & w1' & _ & Hitems' & Hcoll1 & _ & _ & _ & _ & Hres1).
  rewrite Hitems in Hitems'. injection Hitems' as <- <-. cbn in Hcoll1.
  destruct out1 as [o1|[resources toDelete]].
  { destruct Hout1 as [_ ->]. split; [done|]. split; [done|]. by rewrite Hcoll1. }
  assert (Hout : id ∉ object_keys data).
  { intros Hin. by destruct (Hstops Hin). }
  destruct Hres1 as (_ & _ & Hdel1).
  cbn [collection log] in Hdel1. rewrite toDelete_candidates in Hdel1. subst toDelete.
  destruct Hout1 as (out2 & w2 & Hdel & Hout2).
  destruct (putAll_deletions_run ctx (candidates_in_order order data w) w1)
    as (out2' & w2' & _ & Hdel' & Hheap2 & Hcoll2 & _ & _ & Hres2).
  rewrite Hdel in Hdel'. injection Hdel' as <- <-.
  destruct out2 as [o2|[]].
  { destruct Hout2 as [_ ->]. rewrite Hheap2, Hcoll2, Hcoll1. by repeat split. }
  destruct Hout2 as [_ ->]. cbn. rewrite Hheap2.
  split; [done|]. split; [done|]. intros Hnodelete. exfalso.
  rewrite Forall_forall in Hres2.
  specialize (Hres2 (id, r)). cbn in Hres2. unfold may_delete in Hres2.
  rewrite Hkept in Hres2. cbn in Hres2. rewrite Hnodelete in Hres2.
  enough (false = true) by done. apply Hres2.
  apply candidates_lookup, map_lookup_filter_Some. by split.
Qed.

(** The first loop of [putAll] on identifiers that are all in the
    collection: updates only, and no instance is created. *)
Lemma putAll_items_present ctx data ids : ∀ resources toDelete w,
  (∀ id, id ∈ ids → is_Some (collection w !! id)) →
  let result := putAll_items ctx data ids resources toDelete w in
  ∃ evs,
    trace result.2 = trace w ++ evs
    ∧ Forall (λ e, is_update_call e = true) evs
    ∧ length (heap result.2) = length (heap w).
Proof.
  induction ids as [|id ids IH]; intros resources toDelete w Hpresent; cbn zeta.
  - exists []. cbn. by rewrite app_nil_r.
  - destruct (Hpresent id) as [r Hr]; [by left|].
    assert (Hitem : ∃ evs1,
      trace (putAll_item ctx data id resources toDelete w).2 = trace w ++ evs1
      ∧ Forall (λ e, is_update_call e = true) evs1
      ∧ length (heap (putAll_item ctx data id resources toDelete w).2)
        = length (heap w)
      ∧ collection (putAll_item ctx data id resources toDelete w).2 = collection w).
    { unfold putAll_item. unfold_M. rewrite Hr. cbn.
      destruct (from_option (rights ctx Update) false (heap w !! r)); cbn.
      - destruct (heap w !! r) as [s|]; cbn.
        + destruct (edit s (get_prop data id)); cbn; rewrite <- !app_assoc;
            eexists; (split; [reflexivity|]); (split; [by repeat constructor|]);
            by rewrite length_insert.
        + rewrite <- !app_assoc. eexists. split; [reflexivity|].
          by repeat constructor.
      - rewrite <- !app_assoc. eexists. split; [reflexivity|].
        by repeat constructor. }
    destruct Hitem as (evs1 & Htr1 & Hev1 & Hlen1 & Hcoll1).
    cbn [putAll_items]. unfold mbind, M_bind.
    destruct (putAll_item ctx data id resources toDelete w)
      as [[o|[resources1 toDelete1]] w1]; cbn in Htr1, Hlen1, Hcoll1 |- *.
    + by exists evs1.
    + destruct (IH resources1 toDelete1 w1) as (evs & Htr & Hev & Hlen).
      { intros id' Hid'. rewrite Hcoll1. apply Hpresent. by right. }
      cbn zeta in Htr, Hlen. exists (evs1 ++ evs).
      split; [by rewrite Htr, Htr1, app_assoc|].
      split; [by apply Forall_app|congruence].
Qed.

Lemma assigned_keys_all data :
  "__proto__" ∉ object_keys data → assigned_keys data = object_keys data.
Proof.
  intros Hproto. unfold assigned_keys.
  induction (object_keys data) as [|id ids IH]; [done|].
  apply not_elem_of_cons in Hproto as [Hne Hproto].
  rewrite filter_cons_True by done. by rewrite IH.
Qed.

(** X11. Collection PUT twice.  After a collection PUT that ended with
    204, of a payload without the identifier ["__proto__"], a second one
    with the same payload, by whatever caller, makes updates only: it
    instantiates nothing, makes no create check and no delete check, and
    leaves the heap with the instances it had.  If it commits, it is with
    the very mapping that the collection has; and unless the notifier
    then fails, the collection maps the same identifiers to the same
    instances afterwards. *)
Theorem putAll_twice (notifier' : list string → Persisted) (order' : KeyOrder)
    ctx ctx' data w w' :
  run (putAll notifier order ctx data) w = (Status 204, w') →
  "__proto__" ∉ object_keys data →
  let again := run (putAll notifier' order' ctx' data) w' in
  (again.1 ≠ Status 500 → collection again.2 = collection w')
  ∧ length (heap again.2) = length (heap w')
  ∧ ∃ items,
      Forall (λ e, is_update_call e = true) items
      ∧ (calls w' again.2 = CallGetMap :: items
           ∧ (again.1 = Status 400 ∨ ∃ r, again.1 = Disallowed r)
         ∨ calls w' again.2 = CallGetMap :: items ++ [CallSetAll (collection w')]
           ∧ (again.1 = Status 204 ∨ again.1 = Status 500)).
Proof.
  intros Hrun Hproto. cbn zeta.
  (* the first call has left exactly the identifiers of the payload *)
  destruct (putAll_cases notifier order ctx data w) as (o1 & w1 & Hrun1 & Hcase).
  rewrite Hrun in Hrun1. injection Hrun1 as <- <-.
  destruct Hcase as [(_ & [=] & _)|(Htruthy & Htype & _)].
  destruct (putAll_outline notifier order ctx data w Htruthy Htype)
    as (o1 & w1 & evs & Hrun1 & _ & _ & Hcase).
  rewrite Hrun in Hrun1. injection Hrun1 as <- <-.
  destruct Hcase as [([[=]|[r [=]]] & _)|(_ & stored & _ & _ & Hstored & Hdom & _)].
  rewrite assigned_keys_all in Hdom by done.
  assert (Hkeys : ∀ id, id ∈ object_keys data ↔ is_Some (collection w' !! id)).
  { intros id. by rewrite Hstored, <- elem_of_dom, Hdom, elem_of_list_to_set. }
  assert (Hpresent : ∀ id, id ∈ object_keys data → is_Some (collection w' !! id)).
  { intros id. apply Hkeys. }
  clear Hrun evs.
  (* the second call *)
  destruct (putAll_cases notifier' order' ctx' data w') as (o2 & w2 & Hrun2 & Hcase).
  rewrite Hrun2. cbn [fst snd].
  destruct Hcase as [([E|E] & _)|(_ & _ & out1 & w1 & Hitems & Hout1)];
    [congruence..|].
  destruct (putAll_items_present ctx' data (object_keys data) ∅
              (entries_of order' (collection w'))
              (log CallGetMap w') Hpresent) as (items & Htr1 & Hev1 & Hlen1).
  cbn zeta in Htr1, Hlen1. rewrite Hitems in Htr1, Hlen1. cbn in Htr1, Hlen1.
  rewrite <- app_assoc in Htr1. cbn in Htr1.
  destruct (putAll_items_run ctx' data (object_keys data) ∅
              (entries_of order' (collection w')) (log CallGetMap w'))
    as (out1' & w1' & _ & Hitems' & Hcoll1 & _ & _ & _ & _ & Hres1).
  rewrite Hitems in Hitems'. injection Hitems' as <- <-. cbn in Hcoll1.
  destruct out1 as [o1|[resources toDelete]].
  { destruct Hout1 as [-> ->]. split; [done|]. split; [done|].
    exists items. split; [done|]. left. split; [by apply calls_app|done]. }
  destruct Hres1 as (Hin & Hout & Hdel1).
  (* nothing is left to delete *)
  assert (Hnone : toDelete = []).
  { cbn [collection log] in Hdel1. rewrite toDelete_candidates in Hdel1.
    subst toDelete. apply elem_of_nil_inv.
    intros [id r] [Hno Hentry]%list_elem_of_filter. cbn in Hno. apply Hno, Hkeys.
    apply (enumerates_lookup _ (collection w')) in Hentry;
      [|apply entries_of_enumerates].
    by rewrite Hentry. }
  clear Hdel1. subst toDelete. cbn in Hout1.
  destruct Hout1 as (out2 & w3 & [= <- <-] & [-> ->]). cbn.
  (* what is gathered is what was stored *)
  assert (Hsame : resources = collection w').
  { destruct (putAll_items_origin ctx' data w' (object_keys data) ∅
                (entries_of order' (collection w'))
                (log CallGetMap w') resources [] w1 eq_refl (Nat.le_refl _))
      as [_ Hfrom]; [by intros *; rewrite lookup_empty|done|].
    assert (Hproto' : ∀ id, id ∈ object_keys data → id ≠ "__proto__").
    { by intros id Hid ->. }
    apply map_eq. intros id. destruct (resources !! id) as [r|] eqn:Hr.
    - destruct (Hfrom id r Hr) as [Hold|[Hnone _]]; [done|].
      destruct (decide (id ∈ object_keys data)) as [Hid|Hid].
      + destruct (Hpresent id Hid) as [r' Hr']. congruence.
      + rewrite Hout, lookup_empty in Hr by (by left). done.
    - destruct (decide (id ∈ object_keys data)) as [Hid|Hid].
      + destruct (Hin id Hid (Hproto' id Hid)) as [r' Hr']. congruence.
      + symmetry. apply eq_None_not_Some. intros Hsome. by apply Hid, Hkeys. }
  subst resources. split; [done|]. split; [done|].
  exists items. split; [done|]. right. split.
  - apply calls_app. cbn. by rewrite Htr1, <- app_assoc.
  - destruct (notifier' _); eauto.
Qed.

End Protection.

(** ** The further properties on the cellar *)

Lemma putAll_phases_witness :
  let result := run (putAll Beer.saves Beer.shelf (Beer.anyone "") Beer.replacement)
                    Beer.cellar in
  ∃ items resources,
    lookups items = ["b"; "c"]
    ∧ Forall (λ e, is_item_call e = true) items
    ∧ calls Beer.cellar result.2
      = CallGetMap :: items ++ [CallMay Delete 0] ++ [CallSetAll resources]
    ∧ dom resources = list_to_set ["b"; "c"].
Proof.
  cbv zeta.
  destruct (putAll_phases Beer.saves Beer.shelf (Beer.anyone "") Beer.replacement
              Beer.cellar)
    as [([Hshape|Hshape] & _)
       |(_ & items & Hitems & _
           & [(_ & [Ho|[r Ho]])
             |(Hlook & [(checked & r & rest & _ & _ & Ho & _)
                       |(resources & Hcalls & Hdom & _)])])].
  - discriminate Hshape.
  - by destruct Hshape.
  - vm_compute in Ho. discriminate Ho.
  - vm_compute in Ho. discriminate Ho.
  - vm_compute in Ho. discriminate Ho.
  - exists items, resources. split; [exact Hlook|]. split; [exact Hitems|].
    split; [exact Hcalls|exact Hdom].
Defined.

Lemma putAll_empty_payload_witness :
  (let result := run (putAll Beer.saves Beer.shelf (Beer.anyone "") (JObj [])) Beer.cellar in
   result.1 = Status 204
   ∧ heap result.2 = heap Beer.cellar
   ∧ calls Beer.cellar result.2
     = [CallGetMap; CallMay Delete 0; CallMay Delete 1; CallSetAll ∅]
   ∧ collection result.2 = ∅)
  ∧ (let result := run (putAll Beer.saves Beer.shelf (Beer.context "" true true true false)
                               (JArr [])) Beer.cellar in
     ∃ checked r rest,
       (entries_of Beer.shelf (collection Beer.cellar)).*2 = checked ++ r :: rest
       ∧ result.1 = Disallowed r
       ∧ Forall (λ r, may_delete (Beer.context "" true true true false)
                                 Beer.cellar r = true) checked
       ∧ may_delete (Beer.context "" true true true false) Beer.cellar r = false
       ∧ collection result.2 = collection Beer.cellar
       ∧ heap result.2 = heap Beer.cellar
       ∧ calls Beer.cellar result.2 = CallGetMap :: (CallMay Delete <$> checked ++ [r])).
Proof.
  split.
  - destruct (putAll_empty_payload Beer.saves Beer.shelf (Beer.anyone "") (JObj []) Beer.cellar
                (or_introl eq_refl)) as [Hallowed _].
    cbv zeta in Hallowed |- *.
    destruct Hallowed as (Ho & Hheap & Hcalls & Hcoll); [by_computation|].
    split; [exact Ho|]. split; [exact Hheap|]. split; [exact Hcalls|exact (Hcoll Ho)].
  - destruct (putAll_empty_payload Beer.saves Beer.shelf (Beer.context "" true true true false)
                (JArr []) Beer.cellar (or_intror eq_refl)) as [_ Hdenied].
    apply Hdenied. by_computation.
Defined.

Lemma putAll_keeps_instances_witness :
  let after := (run (putAll Beer.saves Beer.shelf (Beer.anyone "") Beer.replacement) Beer.cellar).2 in
  ∃ resources,
    last (calls Beer.cellar after) = Some (CallSetAll resources)
    ∧ collection after = resources
    ∧ length (heap Beer.cellar) ≤ length (heap after)
    ∧ collection Beer.cellar !! "b" = Some 1
    ∧ resources !! "b" = Some 1.
Proof.
  cbv zeta.
  set (result := run (putAll Beer.saves Beer.shelf (Beer.anyone "") Beer.replacement) Beer.cellar).
  assert (Hrun : result = (Status 204, result.2)) by (vm_compute; reflexivity).
  destruct (putAll_keeps_instances Beer.saves Beer.shelf (Beer.anyone "") Beer.replacement
              Beer.cellar (Status 204) result.2 Hrun (or_introl eq_refl))
    as (resources & Hlast & Hcoll & Hlen & _ & Hkept).
  exists resources. split; [exact Hlast|]. split; [exact (Hcoll eq_refl)|].
  split; [exact Hlen|]. split; [reflexivity|].
  apply Hkept; [by_computation|reflexivity].
Defined.

Lemma handlers_keep_invariants_witness :
  (well_formed (run (get (Beer.anyone "a")) Beer.cellar).2
   ∧ alias_free (run (get (Beer.anyone "a")) Beer.cellar).2)
  ∧ (well_formed (run (patch Beer.saves (Beer.anyone "a") (Beer.info "Amber" 5))
                     Beer.cellar).2
     ∧ alias_free (run (patch Beer.saves (Beer.anyone "a") (Beer.info "Amber" 5))
                      Beer.cellar).2)
  ∧ (well_formed (run (putAll Beer.saves Beer.shelf (Beer.anyone "a") Beer.replacement)
                     Beer.cellar).2
     ∧ alias_free (run (putAll Beer.saves Beer.shelf (Beer.anyone "a") Beer.replacement)
                      Beer.cellar).2).
Proof.
  exact (handlers_keep_invariants Beer.saves Beer.shelf (Beer.anyone "a") (Beer.info "Amber" 5)
           Beer.replacement Beer.cellar cellar_well_formed cellar_alias_free).
Defined.

Lemma patch_unsupported_format_witness :
  run (patch Beer.saves (Beer.unformatted "a") (Beer.info "Amber" 5)) Beer.cellar
  = (Status 415,
     mkWorld (heap Beer.cellar) (collection Beer.cellar)
             (trace Beer.cellar ++ [CallGet "a"; CallCreateCustomFn "patch" 0])).
Proof.
  exact (patch_unsupported_format Beer.saves (Beer.unformatted "a") (Beer.info "Amber" 5)
           Beer.cellar 0 (Beer.mk "a" (JStr "Ale") (JNum 1))
           eq_refl eq_refl eq_refl eq_refl).
Defined.

Lemma patch_touches_one_instance_witness :
  let after := (run (patch Beer.saves (Beer.anyone "a") (Beer.info "Amber" 5))
                    Beer.cellar).2 in
  collection after = collection Beer.cellar
  ∧ length (heap after) = length (heap Beer.cellar)
  ∧ heap after !! 1 = heap Beer.cellar !! 1.
Proof.
  cbv zeta.
  destruct (patch_touches_one_instance Beer.saves (Beer.anyone "a") (Beer.info "Amber" 5)
              Beer.cellar) as (Hcoll & Hlen & Hothers).
  split; [exact Hcoll|]. split; [exact Hlen|]. apply Hothers. by_computation.
Defined.

Lemma patch_then_get_witness :
  let patched := (run (patch Beer.fails (Beer.anyone "a") (Beer.info "Amber" 5))
                      Beer.cellar).2 in
  (run (get (Beer.anyone "a")) patched).1 = StatusBody 200 0
  ∧ heap (run (get (Beer.anyone "a")) patched).2 !! 0
    = Some (Beer.mk "a" (JStr "Amber") (JNum 5)).
Proof.
  exact (patch_then_get Beer.fails (Beer.anyone "a") (Beer.anyone "a")
           (Beer.info "Amber" 5) Beer.cellar 0 (Beer.mk "a" (JStr "Ale") (JNum 1))
           (Beer.mk "a" (JStr "Amber") (JNum 5))
           eq_refl eq_refl eq_refl eq_refl eq_refl eq_refl eq_refl eq_refl).
Defined.

Lemma putAll_then_item_witness :
  let after := (run (putAll Beer.saves Beer.shelf (Beer.anyone "") Beer.replacement) Beer.cellar).2 in
  ((run (get (Beer.anyone "a")) after).1 = Status 404
   ∧ (run (patch Beer.saves (Beer.anyone "a") (Beer.info "Amber" 5)) after).1
     = Status 404)
  ∧ ((run (get (Beer.anyone "c")) after).1 ≠ Status 404
     ∧ (run (patch Beer.saves (Beer.anyone "c") (Beer.info "Amber" 5)) after).1
       ≠ Status 404).
Proof.
  cbv zeta.
  set (result := run (putAll Beer.saves Beer.shelf (Beer.anyone "") Beer.replacement) Beer.cellar).
  assert (Hrun : result = (Status 204, result.2)) by (vm_compute; reflexivity).
  split.
  - apply (putAll_then_item Beer.saves Beer.shelf Beer.saves (Beer.anyone "") (Beer.anyone "a")
             Beer.replacement (Beer.info "Amber" 5) Beer.cellar result.2 Hrun).
    left. by_computation.
  - apply (putAll_then_item Beer.saves Beer.shelf Beer.saves (Beer.anyone "") (Beer.anyone "c")
             Beer.replacement (Beer.info "Amber" 5) Beer.cellar result.2 Hrun).
    + by_computation.
    + discriminate.
Defined.

Lemma putAll_protects_denied_witness :
  let after := (run (putAll Beer.saves Beer.shelf (Beer.context "" true true false false)
                            (JObj [("c", Beer.info "Cider" 4)])) Beer.cellar).2 in
  heap after !! 0 = Some (Beer.mk "a" (JStr "Ale") (JNum 1))
  ∧ collection after !! "a" = Some 0.
Proof.
  cbv zeta.
  destruct (putAll_protects_denied Beer.saves Beer.shelf (Beer.context "" true true false false)
              (JObj [("c", Beer.info "Cider" 4)]) Beer.cellar "a" 0
              (Beer.mk "a" (JStr "Ale") (JNum 1)))
    as (Hstate & _ & Hstays); try reflexivity.
  - by_computation.
  - exact cellar_well_formed.
  - exact cellar_alias_free.
  - split; [exact Hstate|]. apply Hstays. reflexivity.
Defined.

Lemma putAll_twice_witness :
  let first := (run (putAll Beer.saves Beer.shelf (Beer.anyone "") Beer.replacement) Beer.cellar).2 in
  let again := run (putAll Beer.fails Beer.shelf (Beer.context "" false true true false)
                           Beer.replacement) first in
  (again.1 ≠ Status 500 → collection again.2 = collection first)
  ∧ length (heap again.2) = length (heap first)
  ∧ ∃ items,
      Forall (λ e, is_update_call e = true) items
      ∧ (calls first again.2 = CallGetMap :: items
           ∧ (again.1 = Status 400 ∨ ∃ r, again.1 = Disallowed r)
         ∨ calls first again.2 = CallGetMap :: items ++ [CallSetAll (collection first)]
           ∧ (again.1 = Status 204 ∨ again.1 = Status 500)).
Proof.
  cbv zeta.
  set (result := run (putAll Beer.saves Beer.shelf (Beer.anyone "") Beer.replacement) Beer.cellar).
  assert (Hrun : result = (Status 204, result.2)) by (vm_compute; reflexivity).
  assert (Hproto : "__proto__" ∉ object_keys Beer.replacement) by by_computation.
  exact (putAll_twice Beer.saves Beer.shelf Beer.fails Beer.shelf (Beer.anyone "")
           (Beer.context "" false true true false)
           Beer.replacement Beer.cellar result.2 Hrun Hproto).
Defined.
